(** * TruePass chatbot: intent scoring, entity extraction and turn dispatch

    A shallow embedding of [TruePass/Chatbot/chatbot.py]: the classes
    [TruePassChatbot] and [TruePassWebChatbot].  Python values are modelled
    as follows.

    - A [str] is the list of its Unicode code points.
    - The score of an intent is the quotient of two integers.  Python's [/]
      on integers yields the correctly rounded double; for one input text all
      scores share their denominator and the numerators are at most 26, so
      comparing the doubles and comparing the exact rationals agree.  Scores
      are therefore kept as exact rationals ([Q]).
    - A dictionary whose iteration order is observed ([intent_patterns],
      [intent_scores]) is an insertion-ordered association list.  The result
      of [_extract_entities] is a [gmap]: its four possible keys are always
      written in the same order, so the mapping determines the dictionary.
    - Exceptions are an explicit error result ([option] for the arithmetic,
      a sum for the completion service).
    - The instance attributes form a record that every method takes and
      returns. *)

From Stdlib Require Import QArith.
From Stdlib Require Import Ascii String.
From stdpp Require Import gmap strings list.

Local Open Scope N_scope.

(** ** Python strings *)

Module PyStr.

Definition codepoint := N.
Definition str := list N.

(** UTF-8 decoding, used to write [str] literals in this file. *)
Fixpoint utf8_decode (bs : list N) : str :=
  match bs with
  | [] => []
  | b0 :: t =>
      if b0 <? 128 then b0 :: utf8_decode t
      else if b0 <? 224 then
        match t with
        | b1 :: t' => (b0 mod 32 * 64 + b1 mod 64) :: utf8_decode t'
        | _ => []
        end
      else if b0 <? 240 then
        match t with
        | b1 :: b2 :: t' =>
            (b0 mod 16 * 4096 + b1 mod 64 * 64 + b2 mod 64) :: utf8_decode t'
        | _ => []
        end
      else
        match t with
        | b1 :: b2 :: b3 :: t' =>
            (b0 mod 8 * 262144 + b1 mod 64 * 4096 + b2 mod 64 * 64 + b3 mod 64)
              :: utf8_decode t'
        | _ => []
        end
  end.

Definition py (s : string) : str :=
  utf8_decode (map N_of_ascii (list_ascii_of_string s)).

(** [s.startswith(p)] *)
Fixpoint starts_with (p s : str) : bool :=
  match p, s with
  | [], _ => true
  | a :: p', b :: s' => (a =? b) && starts_with p' s'
  | _ :: _, [] => false
  end.

(** [needle in hay] *)
Fixpoint contains (needle hay : str) : bool :=
  starts_with needle hay ||
  match hay with
  | [] => false
  | _ :: hay' => contains needle hay'
  end.

(** [str.isspace] on one character: the white space of CPython's Unicode
    database. *)
Definition is_space (c : codepoint) : bool :=
  ((9 <=? c) && (c <=? 13)) || ((28 <=? c) && (c <=? 32))
  || (c =? 133) || (c =? 160) || (c =? 5760)
  || ((8192 <=? c) && (c <=? 8202))
  || (c =? 8232) || (c =? 8233) || (c =? 8239) || (c =? 8287) || (c =? 12288).

(** [s.split()]: the maximal runs of characters that are not white space.
    [cur] is the word being read, in reverse. *)
Fixpoint split_from (cur : str) (s : str) : list str :=
  match s with
  | [] => match cur with [] => [] | _ => [rev cur] end
  | c :: s' =>
      if is_space c then
        match cur with
        | [] => split_from [] s'
        | _ => rev cur :: split_from [] s'
        end
      else split_from (c :: cur) s'
  end.

Definition split (s : str) : list str := split_from [] s.

(** [s.lstrip()], [s.rstrip()], [s.strip()] *)
Fixpoint lstrip (s : str) : str :=
  match s with
  | c :: s' => if is_space c then lstrip s' else s
  | [] => []
  end.

Definition rstrip (s : str) : str := rev (lstrip (rev s)).

Definition strip (s : str) : str := rstrip (lstrip s).

(** What the interpreter's Unicode database decides: case mapping and the
    character classes used by [re]. *)
Record unicode : Type := {
  lower : str -> str;               (* [str.lower] *)
  is_decimal : codepoint -> bool;   (* [\d]: general category Nd *)
  is_alnum : codepoint -> bool      (* [str.isalnum]; with [_], this is [\w] *)
}.

(** The database restricted to Latin-1: exact below code point 256, and
    exact on every code point above that is neither cased, nor a letter, nor
    a number (such as U+20B9 and U+201A). *)
Definition latin1_lower_char (c : codepoint) : codepoint :=
  if ((65 <=? c) && (c <=? 90))
     || ((192 <=? c) && (c <=? 222) && negb (c =? 215))
  then c + 32 else c.

Definition latin1_is_decimal (c : codepoint) : bool := (48 <=? c) && (c <=? 57).

Definition latin1_is_alnum (c : codepoint) : bool :=
  latin1_is_decimal c
  || ((65 <=? c) && (c <=? 90)) || ((97 <=? c) && (c <=? 122))
  || (c =? 170) || (c =? 178) || (c =? 179) || (c =? 181) || (c =? 185)
  || (c =? 186) || (c =? 188) || (c =? 189) || (c =? 190)
  || ((192 <=? c) && (c <=? 255) && negb (c =? 215) && negb (c =? 247)).

Definition latin1 : unicode :=
  {| lower := map latin1_lower_char;
     is_decimal := latin1_is_decimal;
     is_alnum := latin1_is_alnum |}.

End PyStr.

Import PyStr.

(** ** Regular expressions

    The fragment of Python's [re] that [_extract_entities] uses, run by a
    backtracking matcher with greedy quantifiers.  Every quantified
    sub-expression of the three patterns consumes at least one character, so
    requiring progress in [Star] is exact for them. *)

Module Re.

Inductive regex : Type :=
| Eps
| Lit (c : codepoint)
| Digit
| Word
| Space
| Boundary
| Seq (r1 r2 : regex)
| Opt (r : regex)
| Star (r : regex).

Definition Plus (r : regex) : regex := Seq r (Star r).

Fixpoint Times (n : nat) (r : regex) : regex :=
  match n with
  | O => Eps
  | S n' => Seq r (Times n' r)
  end.

Fixpoint Str (s : str) : regex :=
  match s with
  | [] => Eps
  | c :: s' => Seq (Lit c) (Str s')
  end.

Fixpoint seqs (rs : list regex) : regex :=
  match rs with
  | [] => Eps
  | r :: rs' => Seq r (seqs rs')
  end.

(** A position in the subject: the characters before it (nearest first) and
    the characters after it. *)
Record cursor : Type := { before : str; after : str }.

Definition is_word (U : unicode) (c : codepoint) : bool :=
  is_alnum U c || (c =? 95).

Definition word_at (U : unicode) (s : str) : bool :=
  match s with
  | c :: _ => is_word U c
  | [] => false
  end.

Definition at_boundary (U : unicode) (cu : cursor) : bool :=
  xorb (word_at U (before cu)) (word_at U (after cu)).

Definition eat {A : Type} (ok : codepoint -> bool) (cu : cursor)
    (k : cursor -> option A) : option A :=
  match after cu with
  | c :: s => if ok c then k {| before := c :: before cu; after := s |} else None
  | [] => None
  end.

Fixpoint run {A : Type} (U : unicode) (r : regex) (cu : cursor)
    (k : cursor -> option A) : option A :=
  match r with
  | Eps => k cu
  | Lit c => eat (N.eqb c) cu k
  | Digit => eat (is_decimal U) cu k
  | Word => eat (is_word U) cu k
  | Space => eat is_space cu k
  | Boundary => if at_boundary U cu then k cu else None
  | Seq r1 r2 => run U r1 cu (fun cu1 => run U r2 cu1 k)
  | Opt r1 =>
      match run U r1 cu k with
      | Some a => Some a
      | None => k cu
      end
  | Star r1 =>
      (fix loop (fuel : nat) (cu : cursor) {struct fuel} : option A :=
         match fuel with
         | O => k cu
         | S fuel' =>
             match
               run U r1 cu (fun cu1 =>
                 if (length (after cu1) <? length (after cu))%nat
                 then loop fuel' cu1 else None)
             with
             | Some a => Some a
             | None => k cu
             end
         end) (length (after cu)) cu
  end.

(** A pattern with exactly one capturing group: [prefix(group1)suffix]. *)
Record pattern : Type := { prefix : regex; group1 : regex; suffix : regex }.

(** Match at one position; the result is [m.group(1)]. *)
Definition match_at (U : unicode) (p : pattern) (cu : cursor) : option str :=
  run U (prefix p) cu (fun c1 =>
    run U (group1 p) c1 (fun c2 =>
      run U (suffix p) c2 (fun _ =>
        Some (take (length (after c1) - length (after c2)) (after c1))))).

Fixpoint search_at (U : unicode) (p : pattern) (bef aft : str) : option str :=
  match match_at U p {| before := bef; after := aft |} with
  | Some g => Some g
  | None =>
      match aft with
      | [] => None
      | c :: aft' => search_at U p (c :: bef) aft'
      end
  end.

(** [re.search(p, text)], followed by [.group(1)] when there is a match. *)
Definition search (U : unicode) (p : pattern) (text : str) : option str :=
  search_at U p [] text.

End Re.

Import Re.

(** ** Fixed texts *)

Module Texts.

(** The reply of [chat] to a blank message. *)
Definition empty_prompt : str :=
  py "I'd love to help! Please ask me anything about TruePass - NFTs, tickets, payments, or technical support. ğŸ˜Š".

(** The apology of [get_contextual_response], up to the failure detail. *)
Definition apology : str :=
  py "I apologize, but I'm experiencing some technical difficulties right now. ğŸ”§

**What you can try:**
â€¢ Refresh the page and ask your question again
â€¢ Check your internet connection
â€¢ Try asking a more specific question

**Need immediate help?**
â€¢ Check our Help Center for common solutions
â€¢ Contact TruePass support team
â€¢ Join our community Discord for real-time help

Error details: ".

(** The fallback of [get_quick_response]. *)
Definition quick_default : str :=
  py "I don't have a quick response for that topic. Please ask me a specific question and I'll provide detailed help!".

(** The texts that are data only: the system prompt, the bodies of the six
    quick responses, and the JSON renderings ([json.dumps(..., indent=2)]) of
    knowledge-base sections and of the extracted entities. *)
Record prose : Type := {
  system_prompt : str;
  quick_body : string -> str;
  kb_json : list string -> str;
  entities_json : gmap string str -> str
}.

End Texts.

Import Texts.

(** ** Insertion-ordered dictionaries *)

Module Dict.

Definition dict (V : Type) : Type := list (string * V).

(** [d.get(k)] *)
Fixpoint get {V : Type} (k : string) (d : dict V) : option V :=
  match d with
  | [] => None
  | (k', v) :: d' => if String.eqb k k' then Some v else get k d'
  end.

(** [d[k] = v]: an existing key keeps its place, a new key goes last. *)
Fixpoint set {V : Type} (k : string) (v : V) (d : dict V) : dict V :=
  match d with
  | [] => [(k, v)]
  | (k', v') :: d' =>
      if String.eqb k k' then (k', v) :: d' else (k', v') :: set k v d'
  end.

Definition keys {V : Type} (d : dict V) : list string := map fst d.

Definition values {V : Type} (d : dict V) : list V := map snd d.

(** One step of [max]: the item replaces the best so far only when its value
    is strictly greater. *)
Definition pick (best kv : string * Q) : string * Q :=
  match Qcompare (snd best) (snd kv) with
  | Lt => kv
  | _ => best
  end.

(** [max(d, key=d.get)] on a dictionary that is not empty ([None] on an empty
    one, where Python raises): the first key, in iteration order, whose value
    no other value exceeds. *)
Definition max_key (d : dict Q) : option string :=
  match d with
  | [] => None
  | kv :: d' => Some (fst (fold_left pick d' kv))
  end.

End Dict.

(** ** The intent scorer and the entity extractor *)

Module Intent.

Local Open Scope string_scope.
Local Open Scope Z_scope.

Record intent_pattern : Type := {
  keywords : list str;
  confidence_boost : list str;
  entities : list string
}.

Definition intent_patterns : Dict.dict intent_pattern :=
  [ ("ticket_purchase",
     {| keywords := map py ["buy ticket"; "purchase ticket"; "ticket price";
                            "book ticket"; "inr"; "rupee"; "pay"];
        confidence_boost := map py ["upi"; "paytm"; "credit card"; "payment"];
        entities := ["price"; "payment_method"; "ticket_type"] |});
    ("ticket_generation",
     {| keywords := map py ["generate ticket"; "create ticket"; "mint ticket";
                            "new ticket"; "totp"; "qr code"];
        confidence_boost := map py ["authenticator"; "google authenticator";
                                    "secret key"];
        entities := ["event_name"; "expiry_time"; "ticket_id"] |});
    ("ticket_validation",
     {| keywords := map py ["validate ticket"; "verify ticket"; "check ticket";
                            "authentication"; "totp code"];
        confidence_boost := map py ["6 digit"; "authenticator code";
                                    "validation failed"];
        entities := ["token_id"; "totp_code"; "validation_status"] |});
    ("wallet_connection",
     {| keywords := map py ["wallet"; "metamask"; "connect wallet";
                            "wallet connection"; "ethereum"];
        confidence_boost := map py ["can't connect"; "connection failed";
                                    "wallet error"];
        entities := ["wallet_type"; "error_message"; "network"] |});
    ("nft_marketplace",
     {| keywords := map py ["nft"; "marketplace"; "collection"; "buy nft";
                            "sell nft"; "trade"];
        confidence_boost := map py ["opensea"; "digital art"; "collectible"];
        entities := ["nft_type"; "collection_name"; "price_range"] |});
    ("payment_issues",
     {| keywords := map py ["payment failed"; "transaction error";
                            "payment not working"; "can't pay"];
        confidence_boost := map py ["upi failed"; "card declined";
                                    "payment timeout"];
        entities := ["payment_method"; "error_code"; "amount"] |});
    ("technical_support",
     {| keywords := map py ["error"; "not working"; "problem"; "issue"; "help";
                            "stuck"];
        confidence_boost := map py ["browser"; "mobile"; "slow"; "crashed"];
        entities := ["error_type"; "device_type"; "browser"] |});
    ("general_info",
     {| keywords := map py ["what is"; "how does"; "explain"; "about";
                            "overview"; "features"];
        confidence_boost := map py ["truepass"; "blockchain"; "crypto"];
        entities := ["topic"; "feature_name"] |}) ].

(** [a / b] on integers; [None] is [ZeroDivisionError]. *)
Definition truediv (a b : Z) : option Q :=
  if b =? 0 then None else Some (inject_Z a / inject_Z b)%Q.

(** [sum(1 for kw in kws if kw in text)] *)
Definition matches (kws : list str) (text : str) : Z :=
  foldr Z.add 0 (map (fun _ => 1) (List.filter (fun kw => contains kw text) kws)).

(** The body of the scoring loop for one pattern. *)
Definition score_of (user_input_lower : str) (pattern : intent_pattern) : option Q :=
  let score := 0 in
  let keyword_matches := matches (keywords pattern) user_input_lower in
  let score := score + keyword_matches * 2 in
  let boost_matches := matches (confidence_boost pattern) user_input_lower in
  let score := score + boost_matches * 3 in
  truediv score (Z.max (Z.of_nat (length (split user_input_lower))) 1).

(** The scoring loop over [intent_patterns.items()]. *)
Fixpoint score_loop (user_input_lower : str) (items : Dict.dict intent_pattern)
    (intent_scores : Dict.dict Q) : option (Dict.dict Q) :=
  match items with
  | [] => Some intent_scores
  | (intent, pattern) :: items' =>
      score ← score_of user_input_lower pattern;
      score_loop user_input_lower items' (Dict.set intent score intent_scores)
  end.

(** The three patterns of [_extract_entities], as they stand in the source
    file: the price pattern opens with the characters U+00E2 U+201A and an
    optional U+00B9. *)
Definition price_re : pattern :=
  {| prefix := Seq (Str (py "â‚")) (Opt (Str (py "¹")));
     group1 := Seq (Plus Digit) (Star (Seq (Str (py ",")) (Plus Digit)));
     suffix := Eps |}.

Definition token_re : pattern :=
  {| prefix := seqs [Str (py "token"); Star Space; Opt (Str (py "id"));
                     Star Space; Opt (Str (py ":")); Star Space];
     group1 := Plus Word;
     suffix := Eps |}.

Definition totp_re : pattern :=
  {| prefix := Boundary; group1 := Times 6 Digit; suffix := Boundary |}.

Definition payment_methods : list str :=
  map py ["upi"; "paytm"; "credit card"; "debit card"; "net banking"].

Definition _extract_entities (U : unicode) (text : str)
    (entity_types : list string) : gmap string str :=
  let entities : gmap string str := ∅ in
  let text_lower := lower U text in
  let entities :=
    if bool_decide ("price" ∈ entity_types) then
      match search U price_re text with
      | Some g => <["price" := g]> entities
      | None => entities
      end
    else entities in
  let entities :=
    if bool_decide ("payment_method" ∈ entity_types) then
      match List.find (fun method => contains method text_lower) payment_methods with
      | Some method => <["payment_method" := method]> entities
      | None => entities
      end
    else entities in
  let entities :=
    if bool_decide ("token_id" ∈ entity_types) then
      match search U token_re text_lower with
      | Some g => <["token_id" := g]> entities
      | None => entities
      end
    else entities in
  let entities :=
    if bool_decide ("totp_code" ∈ entity_types) then
      match search U totp_re text with
      | Some g => <["totp_code" := g]> entities
      | None => entities
      end
    else entities in
  entities.

Record intent_result : Type := {
  intent : string;
  confidence : Q;
  detected_entities : gmap string str;
  all_scores : Dict.dict Q
}.

Definition analyze_user_intent (U : unicode) (user_input : str) : option intent_result :=
  let user_input_lower := lower U user_input in
  intent_scores ← score_loop user_input_lower intent_patterns [];
  let primary_intent := default "general_info" (Dict.max_key intent_scores) in
  let confidence := default 0%Q (Dict.get primary_intent intent_scores) in
  let detected_entities :=
    match Dict.get primary_intent intent_patterns with
    | Some pattern => _extract_entities U user_input (entities pattern)
    | None => ∅
    end in
  Some {| intent := primary_intent;
          confidence := confidence;
          detected_entities := detected_entities;
          all_scores := intent_scores |}.

End Intent.

Import Intent.

(** ** The chatbot: conversation state and turn dispatch *)

Module Bot.

Local Open Scope string_scope.
Local Open Scope Z_scope.
Local Open Scope list_scope.

(** A turn of the conversation, [{"role": ..., "content": ...}]. *)
Record message : Type := { role : string; content : str }.

(** [self.user_context] *)
Record context : Type := {
  current_page : option str;
  user_type : string;
  last_topic : option string
}.

(** An entry of [self.user_feedback]. *)
Record feedback : Type := {
  fb_message_id : str;
  rating : Z;
  comment : option str;
  fb_timestamp : Z;
  fb_session_id : str
}.

(** The attributes of a [TruePassWebChatbot] that the methods read or write.
    [completion_calls] is not an attribute: it records, oldest first, the
    message lists handed to the completion service. *)
Record bot : Type := {
  conversation_history : list message;
  session_start : Z;
  user_context : context;
  session_id : str;
  user_feedback : list feedback;
  completion_calls : list (list message)
}.

(** The state after [__init__]. *)
Definition init (start : Z) (sid : str) : bot :=
  {| conversation_history := [];
     session_start := start;
     user_context := {| current_page := None; user_type := "new"; last_topic := None |};
     session_id := sid;
     user_feedback := [];
     completion_calls := [] |}.

Definition set_current_page (page : option str) (self : bot) : bot :=
  {| conversation_history := conversation_history self;
     session_start := session_start self;
     user_context := {| current_page := page;
                        user_type := user_type (user_context self);
                        last_topic := last_topic (user_context self) |};
     session_id := session_id self;
     user_feedback := user_feedback self;
     completion_calls := completion_calls self |}.

Definition set_last_topic (topic : string) (self : bot) : bot :=
  {| conversation_history := conversation_history self;
     session_start := session_start self;
     user_context := {| current_page := current_page (user_context self);
                        user_type := user_type (user_context self);
                        last_topic := Some topic |};
     session_id := session_id self;
     user_feedback := user_feedback self;
     completion_calls := completion_calls self |}.

Definition append_history (m : message) (self : bot) : bot :=
  {| conversation_history := conversation_history self ++ [m];
     session_start := session_start self;
     user_context := user_context self;
     session_id := session_id self;
     user_feedback := user_feedback self;
     completion_calls := completion_calls self |}.

Definition append_feedback (f : feedback) (self : bot) : bot :=
  {| conversation_history := conversation_history self;
     session_start := session_start self;
     user_context := user_context self;
     session_id := session_id self;
     user_feedback := user_feedback self ++ [f];
     completion_calls := completion_calls self |}.

Definition record_call (messages : list message) (self : bot) : bot :=
  {| conversation_history := conversation_history self;
     session_start := session_start self;
     user_context := user_context self;
     session_id := session_id self;
     user_feedback := user_feedback self;
     completion_calls := completion_calls self ++ [messages] |}.

(** Truth value of an optional string: [None] and the empty string are
    false. *)
Definition truthy (s : option str) : bool :=
  match s with
  | Some (_ :: _) => true
  | _ => false
  end.

(** [l[-n:]] for [n > 0] *)
Definition last_n {A : Type} (n : nat) (l : list A) : list A :=
  drop (length l - n) l.

(** [sep.join(parts)] *)
Fixpoint join (sep : str) (parts : list str) : str :=
  match parts with
  | [] => []
  | [p] => p
  | p :: parts' => p ++ sep ++ join sep parts'
  end.

(** The outcome of [g4f.ChatCompletion.create]: the completion, or the text
    [str(e)] of the exception it raised. *)
Definition completion : Type := str + str.

Definition nl : str := [10%N].

Section Methods.

Context (U : unicode) (T : prose).

Definition quick_responses : Dict.dict str :=
  map (fun topic => (topic, quick_body T topic))
      ["welcome"; "ticket_buying"; "wallet_setup"; "totp_explanation";
       "payment_methods"; "troubleshooting"].

Definition get_quick_response (topic : string) : str :=
  default quick_default (Dict.get topic quick_responses).

(** The knowledge-base sections that [get_contextual_response] adds for an
    intent. *)
Definition intent_context (intent : string) : list str :=
  if String.eqb intent "ticket_purchase" then
    [py "TICKET PURCHASE CONTEXT:";
     kb_json T ["user_guides"; "buying_tickets_inr"];
     kb_json T ["features"; "inr_payments"]]
  else if String.eqb intent "ticket_generation" then
    [py "TICKET GENERATION CONTEXT:";
     kb_json T ["user_guides"; "ticket_generation"];
     kb_json T ["features"; "blockchain_tickets"]]
  else if String.eqb intent "ticket_validation" then
    [py "TICKET VALIDATION CONTEXT:";
     kb_json T ["user_guides"; "ticket_validation"]]
  else if String.eqb intent "wallet_connection" then
    [py "WALLET CONNECTION CONTEXT:";
     kb_json T ["user_guides"; "first_time_setup"];
     kb_json T ["troubleshooting"; "wallet_issues"]]
  else if String.eqb intent "nft_marketplace" then
    [py "NFT MARKETPLACE CONTEXT:";
     kb_json T ["features"; "nft_marketplace"]]
  else if String.eqb intent "payment_issues" then
    [py "PAYMENT TROUBLESHOOTING CONTEXT:";
     kb_json T ["troubleshooting"; "payment_issues"]]
  else if String.eqb intent "technical_support" then
    [py "TECHNICAL SUPPORT CONTEXT:";
     kb_json T ["troubleshooting"];
     kb_json T ["technical_requirements"]]
  else [].

(** The message list that [get_contextual_response] builds for the
    completion service. *)
Definition build_messages (self : bot) (analysis : intent_result)
    (user_input : str) (current_page : option str) : list message :=
  let context_parts :=
    (if truthy current_page
     then [py "User is currently on the " ++ default [] current_page
           ++ py " page of TruePass."]
     else [])
    ++ [py "User intent detected: " ++ py (intent analysis)]
    ++ intent_context (intent analysis)
    ++ (if bool_decide (detected_entities analysis = ∅) then []
        else [py "Extracted entities: "
              ++ entities_json T (detected_entities analysis)]) in
  let full_context := join nl context_parts in
  [{| role := "system";
      content := system_prompt T ++ nl ++ nl ++ py "CURRENT CONTEXT:" ++ nl
                 ++ full_context |}]
  ++ last_n 8 (conversation_history self)
  ++ [{| role := "user"; content := user_input |}].

Definition error_response (detail : str) : str := apology ++ detail.

(** [get_contextual_response]; [g4f_create] is the completion service as it
    answers during this call. *)
Definition get_contextual_response (g4f_create : list message -> completion)
    (self : bot) (user_input : str) (current_page : option str) : str * bot :=
  let self :=
    if truthy current_page then set_current_page current_page self else self in
  match analyze_user_intent U user_input with
  | None => (error_response (py "division by zero"), self)
  | Some intent_analysis =>
      let messages := build_messages self intent_analysis user_input current_page in
      let self := record_call messages self in
      match g4f_create messages with
      | inr e => (error_response e, self)
      | inl response =>
          let self := append_history {| role := "user"; content := user_input |} self in
          let self := append_history {| role := "assistant"; content := response |} self in
          let self := set_last_topic (intent intent_analysis) self in
          (response, self)
      end
  end.

(** [any(kw in text for kw in kws)] *)
Definition any_in (kws : list string) (text : str) : bool :=
  existsb (fun kw => contains (py kw) text) kws.

Definition chat (g4f_create : list message -> completion)
    (self : bot) (user_input : str) (current_page : option str) : str * bot :=
  if bool_decide (strip user_input = []) then (empty_prompt, self)
  else
    let user_input_lower := strip (lower U user_input) in
    if any_in ["hello"; "hi"; "hey"; "welcome"] user_input_lower then
      (get_quick_response "welcome", self)
    else if any_in ["buy ticket"; "purchase ticket"; "ticket price"] user_input_lower then
      (get_quick_response "ticket_buying", self)
    else if any_in ["wallet"; "metamask"; "connect wallet"] user_input_lower then
      (get_quick_response "wallet_setup", self)
    else if any_in ["totp"; "validation"; "authenticate"; "verification"] user_input_lower then
      (get_quick_response "totp_explanation", self)
    else if any_in ["payment"; "upi"; "paytm"; "credit card"] user_input_lower then
      (get_quick_response "payment_methods", self)
    else if any_in ["error"; "problem"; "not working"; "issue"; "help"] user_input_lower then
      (get_quick_response "troubleshooting", self)
    else get_contextual_response g4f_create self user_input current_page.

(** [get_conversation_summary]; [now] is the clock reading.  No turn stored
    by the methods above carries an [intent] key, so [topics_discussed] is
    the empty list. *)
Record summary : Type := {
  session_duration : Z;
  messages_exchanged : nat;
  topics_discussed : list str;
  summary_context : context;
  last_interaction : option message
}.

Definition get_conversation_summary (now : Z) (self : bot) : summary :=
  {| session_duration := now - session_start self;
     messages_exchanged := length (conversation_history self);
     topics_discussed := [];
     summary_context := user_context self;
     last_interaction := last (conversation_history self) |}.

Definition add_user_feedback (now : Z) (self : bot) (message_id : str)
    (rating : Z) (comment : option str) : feedback * bot :=
  let feedback :=
    {| fb_message_id := message_id;
       rating := rating;
       comment := comment;
       fb_timestamp := now;
       fb_session_id := session_id self |} in
  (feedback, append_feedback feedback self).

Record session_info : Type := {
  info_session_id : str;
  start_time : Z;
  end_time : Z;
  duration : Z;
  platform : str
}.

Record conversation_data : Type := {
  messages : list message;
  message_count : nat;
  data_context : context
}.

Record feedback_data : Type := {
  feedback_entries : list feedback;
  average_rating : option Q
}.

Record session_export : Type := {
  export_info : session_info;
  export_conversation : conversation_data;
  export_feedback : feedback_data;
  analytics : summary
}.

(** [export_session_data]; [now k] is the [k]-th clock reading of the call.
    The result comes with the state in which the method leaves the object;
    [None] is an exception. *)
Definition export_session_data (now : nat -> Z) (self : bot)
    : option (session_export * bot) :=
  average ←
    (if bool_decide (user_feedback self = []) then Some None
     else
       q ← truediv (foldr Z.add 0 (map rating (user_feedback self)))
                   (Z.of_nat (length (user_feedback self)));
       Some (Some q));
  Some ({| export_info :=
             {| info_session_id := session_id self;
                start_time := session_start self;
                end_time := now 0%nat;
                duration := now 1%nat - session_start self;
                platform := py "TruePass" |};
           export_conversation :=
             {| messages := conversation_history self;
                message_count := length (conversation_history self);
                data_context := user_context self |};
           export_feedback :=
             {| feedback_entries := user_feedback self;
                average_rating := average |};
           analytics := get_conversation_summary (now 2%nat) self |},
        self).

End Methods.

End Bot.

Import Bot.

(** ** The properties, in the words of the specification *)

Module Spec.

Local Open Scope string_scope.
Local Open Scope list_scope.

(** The number of the keywords [kws] that occur as a substring of [text]. *)
Definition hit_count (kws : list str) (text : str) : nat :=
  length (List.filter (fun kw => contains kw text) kws).

(** The number of white-space separated words of [text]. *)
Definition word_count (text : str) : nat := length (split text).

(** Keyword hits times 2 plus boost hits times 3, over the word count or 1. *)
Definition spec_score (text : str) (P : intent_pattern) : Q :=
  (inject_Z (Z.of_nat (hit_count (keywords P) text) * 2
             + Z.of_nat (hit_count (confidence_boost P) text) * 3)
   / inject_Z (Z.of_nat (Nat.max (word_count text) 1)))%Q.

(** The scores of all patterns, in the order of the table. *)
Definition scores_of (text : str) : Dict.dict Q :=
  map (fun np : string * intent_pattern => (fst np, spec_score text (snd np)))
      intent_patterns.

(** No keyword and no boost keyword of any pattern occurs in [text]. *)
Definition no_hits (text : str) : Prop :=
  Forall (fun np : string * intent_pattern =>
            Forall (fun kw => contains kw text = false)
                   (keywords (snd np) ++ confidence_boost (snd np)))
         intent_patterns.

(** The keyword sets of the shortcut branches of [chat], in the order in
    which they are tried, each with the topic of its canned response. *)
Definition shortcuts : list (list string * string) :=
  [ (["hello"; "hi"; "hey"; "welcome"], "welcome");
    (["buy ticket"; "purchase ticket"; "ticket price"], "ticket_buying");
    (["wallet"; "metamask"; "connect wallet"], "wallet_setup");
    (["totp"; "validation"; "authenticate"; "verification"], "totp_explanation");
    (["payment"; "upi"; "paytm"; "credit card"], "payment_methods");
    (["error"; "problem"; "not working"; "issue"; "help"], "troubleshooting") ].

(** [text], lowered and stripped, contains a keyword of a shortcut branch. *)
Definition triggers_shortcut (U : unicode) (text : str) : Prop :=
  Exists (fun branch : list string * string =>
            Exists (fun kw => contains (py kw) (strip (lower U text)) = true)
                   (fst branch))
         shortcuts.

(** The history entries of one full-pipeline turn. *)
Definition turn_entries (turn : str * str) : list message :=
  [ {| role := "user"; content := fst turn |};
    {| role := "assistant"; content := snd turn |} ].

(** [full_turns U T self log self']: from [self], the calls of
    [get_contextual_response] listed in [log] (user input and completion, in
    order), each answered by the completion service, lead to [self']. *)
Inductive full_turns (U : unicode) (T : prose) : bot -> list (str * str) -> bot -> Prop :=
| turns_done (self : bot) : full_turns U T self [] self
| turns_step (self self' self'' : bot) (g4f_create : list message -> completion)
    (user_input response : str) (current_page : option str)
    (analysis : intent_result) (log : list (str * str)) :
    analyze_user_intent U user_input = Some analysis ->
    g4f_create (build_messages T self analysis user_input current_page)
      = inl response ->
    snd (get_contextual_response U T g4f_create self user_input current_page)
      = self' ->
    full_turns U T self' log self'' ->
    full_turns U T self ((user_input, response) :: log) self''.

(** Texts for the examples. *)
Definition plain : prose :=
  {| system_prompt := py "You are the official AI assistant for TruePass.";
     quick_body := fun topic => py topic;
     kb_json := fun path => join (py "/") (map py path);
     entities_json := fun _ => py "{}" |}.

End Spec.

Import Spec.

(** ** The web chatbot and the HTTP endpoints *)

Module Web.

Local Open Scope string_scope.
Local Open Scope Z_scope.
Local Open Scope list_scope.

Definition base_suggestions : list str :=
  map py ["How do I buy tickets with UPI?";
          "What is blockchain ticket validation?";
          "How do I connect my MetaMask wallet?";
          "Can I use Paytm to buy NFTs?";
          "How does TOTP authentication work?";
          "What do I need to get started?";
          "Is my payment information secure?";
          "How do I validate someone's ticket?"].

Definition wallet_suggestions : list str :=
  map py ["I'm having wallet connection issues";
          "MetaMask won't connect to TruePass";
          "Do I need ETH in my wallet to buy tickets?"].

Definition purchase_suggestions : list str :=
  map py ["My payment failed, what should I do?";
          "How long does ticket delivery take?";
          "Can I get a refund on my ticket?"].

Definition get_suggested_questions (self : bot) : list str :=
  let base_suggestions :=
    if bool_decide (last_topic (user_context self) = Some "wallet_connection")
    then base_suggestions ++ wallet_suggestions
    else if bool_decide (last_topic (user_context self) = Some "ticket_purchase")
    then base_suggestions ++ purchase_suggestions
    else base_suggestions in
  take 8 base_suggestions.

(** The result of [get_chat_context]. *)
Record chat_context : Type := {
  ctx_session_id : str;
  platform_name : str;
  ctx_current_page : option str;
  conversation_length : nat;
  suggested_questions : list str;
  ctx_user_type : string;
  ctx_last_topic : option string;
  available_features : list string;
  session_summary : summary
}.

Definition get_chat_context (now : Z) (self : bot) : chat_context :=
  {| ctx_session_id := session_id self;
     platform_name := py "TruePass";
     ctx_current_page := current_page (user_context self);
     conversation_length := length (conversation_history self);
     suggested_questions := get_suggested_questions self;
     ctx_user_type := user_type (user_context self);
     ctx_last_topic := last_topic (user_context self);
     available_features := ["nft_marketplace"; "blockchain_tickets"; "inr_payments"];
     session_summary := get_conversation_summary now self |}.

(** The reply of [chat_endpoint] to a request without a message. *)
Definition please_prompt : str :=
  py "Please provide a message to get help with TruePass! ğŸ˜Š".

(** The suggestions of [suggestions_endpoint] outside a known session. *)
Definition default_suggestions : list str :=
  map py ["How do I buy tickets with UPI?";
          "What is blockchain ticket validation?";
          "How do I connect my MetaMask wallet?";
          "Can I use Paytm to buy NFTs?";
          "What do I need to get started?"].

Section Endpoints.

(** [strftime t] renders the clock reading [t] as year, month, day, an
    underscore, hour, minute and second. *)
Context (U : unicode) (T : prose) (strftime : Z -> str).

(** [TruePassWebChatbot(session_id=session_id)], created when the clock
    reads [start]; [stamp] is the reading used for a generated identifier. *)
Definition new_web_chatbot (start stamp : Z) (session_id : option str) : bot :=
  init start (if truthy session_id then default [] session_id
              else py "truepass_" ++ strftime stamp).

(** The JSON body of [POST /api/chat]: an object whose fields
    [session_id], [message] and [current_page] are each absent or a
    string. *)
Record chat_request : Type := {
  req_session_id : option str;
  req_message : option str;
  req_current_page : option str
}.

(** The body of the reply of [chat_endpoint] (status 200, [success] true). *)
Record chat_reply : Type := {
  reply_response : str;
  reply_session_id : str;
  reply_suggested : list str;
  reply_context : chat_context;
  reply_timestamp : Z
}.

(** [chat_endpoint]; [active_sessions] is the dictionary of the wrapper and
    [now k] the [k]-th clock reading of the request. *)
Definition chat_endpoint (g4f_create : list message -> completion)
    (now : nat -> Z) (active_sessions : gmap (list N) bot) (data : chat_request)
    : chat_reply * gmap (list N) bot :=
  let session_id := default (py "web_" ++ strftime (now 0%nat)) (req_session_id data) in
  let message := strip (default [] (req_message data)) in
  let current_page := req_current_page data in
  let chatbot :=
    match active_sessions !! session_id with
    | Some chatbot => chatbot
    | None => new_web_chatbot (now 1%nat) (now 2%nat) (Some session_id)
    end in
  let (response, chatbot) :=
    if bool_decide (message = []) then (please_prompt, chatbot)
    else chat U T g4f_create chatbot message current_page in
  ({| reply_response := response;
      reply_session_id := session_id;
      reply_suggested := get_suggested_questions chatbot;
      reply_context := get_chat_context (now 3%nat) chatbot;
      reply_timestamp := now 4%nat |},
   <[session_id := chatbot]> active_sessions).

(** [suggestions_endpoint] with the query parameter [session_id]. *)
Definition suggestions_endpoint (active_sessions : gmap (list N) bot)
    (session_id : option str) : list str :=
  if truthy session_id then
    match active_sessions !! default [] session_id with
    | Some chatbot => get_suggested_questions chatbot
    | None => default_suggestions
    end
  else default_suggestions.

(** The JSON body of [POST /api/feedback], with a string [message_id] and an
    integer [rating]; [session_id] and [comment] are each absent or a
    string. *)
Record feedback_request : Type := {
  fr_session_id : option str;
  fr_message_id : str;
  fr_rating : Z;
  fr_comment : option str
}.

(** The reply of [feedback_endpoint]: status 200 with the [feedback_id], or
    status 404. *)
Inductive feedback_reply : Type :=
| FeedbackStored (feedback_id : Z)
| SessionNotFound.

Definition feedback_endpoint (now : Z) (active_sessions : gmap (list N) bot)
    (data : feedback_request) : feedback_reply * gmap (list N) bot :=
  match fr_session_id data with
  | None => (SessionNotFound, active_sessions)
  | Some session_id =>
      match active_sessions !! session_id with
      | Some chatbot =>
          let (feedback, chatbot) :=
            add_user_feedback now chatbot (fr_message_id data) (fr_rating data)
                              (Some (default [] (fr_comment data))) in
          (FeedbackStored (fb_timestamp feedback),
           <[session_id := chatbot]> active_sessions)
      | None => (SessionNotFound, active_sessions)
      end
  end.

(** The [active_sessions] field of [health_check]. *)
Definition health_check (active_sessions : gmap (list N) bot) : nat :=
  size active_sessions.

End Endpoints.

End Web.

Import Web.

(** ** Further notions used in the statements *)

Module Props.

Local Open Scope string_scope.
Local Open Scope list_scope.

(** [derives U r cu cu']: the expression [r] can match from the position
    [cu] to the position [cu'] of one subject. *)
Inductive derives (U : unicode) : regex -> cursor -> cursor -> Prop :=
| derives_eps (cu : cursor) : derives U Eps cu cu
| derives_lit (c : codepoint) (b s : str) :
    derives U (Lit c) {| before := b; after := c :: s |}
                      {| before := c :: b; after := s |}
| derives_digit (c : codepoint) (b s : str) :
    is_decimal U c = true ->
    derives U Digit {| before := b; after := c :: s |}
                    {| before := c :: b; after := s |}
| derives_word (c : codepoint) (b s : str) :
    is_word U c = true ->
    derives U Word {| before := b; after := c :: s |}
                   {| before := c :: b; after := s |}
| derives_space (c : codepoint) (b s : str) :
    is_space c = true ->
    derives U Space {| before := b; after := c :: s |}
                    {| before := c :: b; after := s |}
| derives_boundary (cu : cursor) :
    at_boundary U cu = true -> derives U Boundary cu cu
| derives_seq (r1 r2 : regex) (cu cu1 cu2 : cursor) :
    derives U r1 cu cu1 -> derives U r2 cu1 cu2 -> derives U (Seq r1 r2) cu cu2
| derives_opt_some (r : regex) (cu cu' : cursor) :
    derives U r cu cu' -> derives U (Opt r) cu cu'
| derives_opt_none (r : regex) (cu : cursor) : derives U (Opt r) cu cu
| derives_star_stop (r : regex) (cu : cursor) : derives U (Star r) cu cu
| derives_star_more (r : regex) (cu cu1 cu2 : cursor) :
    derives U r cu cu1 -> derives U (Star r) cu1 cu2 -> derives U (Star r) cu cu2.

(** [spells U r w]: the characters [w] are what some match of [r]
    consumes ([Boundary] consumes nothing). *)
Inductive spells (U : unicode) : regex -> str -> Prop :=
| spells_eps : spells U Eps []
| spells_lit (c : codepoint) : spells U (Lit c) [c]
| spells_digit (c : codepoint) : is_decimal U c = true -> spells U Digit [c]
| spells_word (c : codepoint) : is_word U c = true -> spells U Word [c]
| spells_space (c : codepoint) : is_space c = true -> spells U Space [c]
| spells_boundary : spells U Boundary []
| spells_seq (r1 r2 : regex) (w1 w2 : str) :
    spells U r1 w1 -> spells U r2 w2 -> spells U (Seq r1 r2) (w1 ++ w2)
| spells_opt_some (r : regex) (w : str) : spells U r w -> spells U (Opt r) w
| spells_opt_none (r : regex) : spells U (Opt r) []
| spells_star_stop (r : regex) : spells U (Star r) []
| spells_star_more (r : regex) (w1 w2 : str) :
    spells U r w1 -> spells U (Star r) w2 -> spells U (Star r) (w1 ++ w2).

(** The rule of [_extract_entities] for one key. *)
Definition entity_rule (U : unicode) (text : str) (key : string) : option str :=
  if String.eqb key "price" then search U price_re text
  else if String.eqb key "payment_method" then
    List.find (fun method => contains method (lower U text)) payment_methods
  else if String.eqb key "token_id" then search U token_re (lower U text)
  else if String.eqb key "totp_code" then search U totp_re text
  else None.

(** The topic of the first shortcut branch, in the order of [shortcuts],
    one of whose keywords occurs in [text]. *)
Definition first_shortcut (text : str) : option string :=
  snd <$> List.find (fun branch : list string * string => any_in (fst branch) text)
                    shortcuts.

(** One call of [chat]: the completion service as it answers during the
    call, the message and the page. *)
Record call : Type := {
  service : list message -> completion;
  input : str;
  page : option str
}.

(** The object after a sequence of [chat] calls. *)
Fixpoint chats (U : unicode) (T : prose) (self : bot) (calls : list call) : bot :=
  match calls with
  | [] => self
  | c :: calls' =>
      chats U T (snd (chat U T (service c) self (input c) (page c))) calls'
  end.


End Props.

Import Props.

(** * Proofs *)

(** ** Strings and patterns *)

Example py_rupee_sign : py "₹500" = [8377; 53; 48; 48].
Proof. reflexivity. Qed.

Example py_price_prefix : py "â‚" = [226; 8218] /\ py "¹" = [185].
Proof. split; reflexivity. Qed.

Example split_words :
  split (py "  how do  I pay ") = [py "how"; py "do"; py "I"; py "pay"]
  /\ split (py "") = [].
Proof. split; reflexivity. Qed.

Example strip_both_ends : strip (py "  hi there  ") = py "hi there".
Proof. reflexivity. Qed.

Example search_price :
  map (fun s => search latin1 price_re (py s))
      ["â‚¹500"; "â‚1,200,x"; "₹500"; "500"]%string
  = [Some (py "500"); Some (py "1,200"); None; None].
Proof. vm_compute. reflexivity. Qed.

Example search_token :
  map (fun s => search latin1 token_re (py s))
      ["token id"; "token id: 42"; "tokenid"; "token : abc_1 x"; "my token"]%string
  = [Some (py "id"); Some (py "42"); Some (py "id"); Some (py "abc_1"); None].
Proof. vm_compute. reflexivity. Qed.

Example search_totp :
  map (fun s => search latin1 totp_re (py s))
      ["My code is 123456"; "1234567"; "a123456"; "x 123456,"; "12345"]%string
  = [Some (py "123456"); None; None; Some (py "123456"); None].
Proof. vm_compute. reflexivity. Qed.

(** ** Substrings *)

Lemma starts_with_spec (p s : str) :
  starts_with p s = true <-> exists post, s = p ++ post.
Proof.
  revert s. induction p as [|a p IH]; intros s; simpl.
  - split; [intros _; by exists s | done].
  - destruct s as [|b s].
    + split; [done | intros [post Hpost]; discriminate].
    + rewrite andb_true_iff, N.eqb_eq, IH. split.
      * intros [-> [post ->]]. by exists post.
      * intros [post Hpost]. injection Hpost as -> ->. eauto.
Qed.

Lemma contains_spec (needle hay : str) :
  contains needle hay = true <-> exists pre post, hay = pre ++ needle ++ post.
Proof.
  induction hay as [|c hay IH].
  - simpl. rewrite orb_false_r, starts_with_spec. split.
    + intros [post ->]. by exists [], post.
    + intros [pre [post H]]. symmetry in H.
      apply app_eq_nil in H as [-> H]. exists post. by rewrite H.
  - change (contains needle (c :: hay))
      with (starts_with needle (c :: hay) || contains needle hay).
    rewrite orb_true_iff, starts_with_spec, IH. split.
    + intros [[post ->] | [pre [post ->]]].
      * by exists [], post.
      * by exists (c :: pre), post.
    + intros [[|c' pre] [post H]]; simpl in H.
      * left. by exists post.
      * right. injection H as -> ->. by exists pre, post.
Qed.

(** ** Dictionaries *)

Lemma get_set_fresh {V : Type} (k : string) (v : V) (d : Dict.dict V) :
  k ∉ Dict.keys d -> Dict.set k v d = d ++ [(k, v)].
Proof.
  induction d as [|[k' v'] d IH]; simpl; [done |].
  intros Hk. apply not_elem_of_cons in Hk as [Hne Hk].
  destruct (String.eqb_spec k k') as [-> | _]; [done |].
  by rewrite IH.
Qed.

Lemma get_elem_of {V : Type} (k : string) (v : V) (d : Dict.dict V) :
  NoDup (Dict.keys d) -> (k, v) ∈ d -> Dict.get k d = Some v.
Proof.
  induction d as [|[k' v'] d IH]; simpl; intros Hnd Hin.
  - by apply elem_of_nil in Hin.
  - apply NoDup_cons in Hnd as [Hk' Hnd].
    apply elem_of_cons in Hin as [Heq | Hin].
    + injection Heq as -> ->. by rewrite String.eqb_refl.
    + destruct (String.eqb_spec k k') as [-> | _]; [| by apply IH].
      exfalso. apply Hk'. apply list_elem_of_fmap. by exists (k', v).
Qed.

Lemma fold_pick_elem_of (d : Dict.dict Q) (best : string * Q) :
  fold_left Dict.pick d best ∈ best :: d.
Proof.
  revert best. induction d as [|kv d IH]; intros best; simpl.
  - apply elem_of_cons. by left.
  - specialize (IH (Dict.pick best kv)).
    apply elem_of_cons in IH as [-> | IH].
    + unfold Dict.pick. destruct (Qcompare _ _); set_solver.
    + set_solver.
Qed.

Lemma pick_le (best kv : string * Q) :
  (snd best <= snd (Dict.pick best kv))%Q /\ (snd kv <= snd (Dict.pick best kv))%Q.
Proof.
  unfold Dict.pick. destruct (Qcompare (snd best) (snd kv)) eqn:Hc.
  - apply Qeq_alt in Hc. split; [apply Qle_refl |]. rewrite Hc. apply Qle_refl.
  - apply Qlt_alt in Hc. split; [by apply Qlt_le_weak | apply Qle_refl].
  - apply Qgt_alt in Hc. split; [apply Qle_refl | by apply Qlt_le_weak].
Qed.

Lemma fold_pick_max (d : Dict.dict Q) (best : string * Q) :
  (snd best <= snd (fold_left Dict.pick d best))%Q
  /\ Forall (fun kv => (snd kv <= snd (fold_left Dict.pick d best))%Q) d.
Proof.
  revert best. induction d as [|kv d IH]; intros best; simpl.
  - split; [apply Qle_refl | constructor].
  - destruct (IH (Dict.pick best kv)) as [H1 H2].
    destruct (pick_le best kv) as [Hb Hk].
    split; [by eapply Qle_trans | constructor; [by eapply Qle_trans | done]].
Qed.

Lemma fold_pick_first (d : Dict.dict Q) (best : string * Q) :
  Forall (fun kv => (snd kv <= snd best)%Q) d -> fold_left Dict.pick d best = best.
Proof.
  induction 1 as [|kv d Hle _ IH]; simpl; [done |].
  replace (Dict.pick best kv) with best; [done |].
  unfold Dict.pick. destruct (Qcompare (snd best) (snd kv)) eqn:Hc; try done.
  apply Qlt_alt in Hc. by apply Qle_not_lt in Hle.
Qed.

(** ** The intent scorer *)

Lemma matches_hit_count (kws : list str) (text : str) :
  matches kws text = Z.of_nat (hit_count kws text).
Proof.
  unfold matches, hit_count.
  induction kws as [|kw kws IH]; simpl; [done |].
  destruct (contains kw text); simpl; [| done].
  simpl in IH. rewrite IH. lia.
Qed.

Lemma score_of_spec (text : str) (P : intent_pattern) :
  score_of text P = Some (spec_score text P).
Proof.
  unfold score_of, truediv, spec_score, word_count.
  rewrite !matches_hit_count, Z.add_0_l, Nat2Z.inj_max.
  change (Z.of_nat 1) with 1%Z.
  destruct (Z.eqb_spec (Z.max (Z.of_nat (length (split text))) 1) 0)
    as [H0 | _]; [lia | done].
Qed.

Lemma score_loop_spec (text : str) (items : Dict.dict intent_pattern)
    (acc : Dict.dict Q) :
  NoDup (Dict.keys acc ++ Dict.keys items) ->
  score_loop text items acc
  = Some (acc ++ map (fun np : string * intent_pattern =>
                        (fst np, spec_score text (snd np))) items).
Proof.
  revert acc. induction items as [|[name P] items IH]; intros acc Hnd; simpl.
  - by rewrite app_nil_r.
  - rewrite score_of_spec. simpl.
    rewrite get_set_fresh.
    + rewrite IH; [by rewrite <- app_assoc |].
      unfold Dict.keys in *. rewrite map_app. simpl. by rewrite <- app_assoc.
    + apply NoDup_app in Hnd as (_ & Hdisj & _).
      intros Hin. apply (Hdisj name Hin). simpl. apply elem_of_cons. by left.
Qed.

Lemma intent_patterns_keys_nodup : NoDup (Dict.keys intent_patterns).
Proof. apply (bool_decide_unpack _). by vm_compute. Qed.

Lemma score_loop_table (text : str) :
  score_loop text intent_patterns [] = Some (scores_of text).
Proof. apply score_loop_spec. apply intent_patterns_keys_nodup. Qed.

Lemma scores_of_keys (text : str) :
  Dict.keys (scores_of text) = Dict.keys intent_patterns.
Proof. unfold scores_of, Dict.keys. rewrite map_map. done. Qed.

Lemma spec_score_nonneg (text : str) (P : intent_pattern) :
  (0 <= spec_score text P)%Q.
Proof.
  unfold spec_score. apply Qle_shift_div_l.
  - change 0%Q with (inject_Z 0). rewrite <- Zlt_Qlt. lia.
  - rewrite Qmult_0_l. change 0%Q with (inject_Z 0). rewrite <- Zle_Qle. lia.
Qed.

Lemma get_is_Some {V : Type} (k : string) (d : Dict.dict V) :
  k ∈ Dict.keys d -> is_Some (Dict.get k d).
Proof.
  induction d as [|[k' v'] d IH]; simpl; intros Hin.
  - by apply elem_of_nil in Hin.
  - destruct (String.eqb_spec k k') as [-> | Hne]; [by eexists |].
    apply elem_of_cons in Hin as [? | Hin]; [done | by apply IH].
Qed.

Lemma max_key_elem_of (d : Dict.dict Q) (k : string) :
  Dict.max_key d = Some k ->
  exists v, (k, v) ∈ d /\ Forall (fun kv => (snd kv <= v)%Q) d.
Proof.
  destruct d as [|kv d]; simpl; [done |].
  intros [= <-]. exists (snd (fold_left Dict.pick d kv)). split.
  - rewrite <- surjective_pairing. apply fold_pick_elem_of.
  - destruct (fold_pick_max d kv) as [H1 H2]. by constructor.
Qed.

(** What [analyze_user_intent] returns, in terms of the score table. *)
Lemma analyze_result (U : unicode) (text : str) :
  exists r P,
    analyze_user_intent U text = Some r
    /\ all_scores r = scores_of (lower U text)
    /\ Dict.max_key (all_scores r) = Some (intent r)
    /\ (intent r, confidence r) ∈ all_scores r
    /\ Dict.get (intent r) intent_patterns = Some P
    /\ detected_entities r = _extract_entities U text (entities P).
Proof.
  unfold analyze_user_intent. rewrite score_loop_table.
  cbn [mbind option_bind].
  pose proof (scores_of_keys (lower U text)) as Hkeys.
  generalize dependent (scores_of (lower U text)). intros d Hkeys.
  assert (Hnd : NoDup (Dict.keys d)).
  { rewrite Hkeys. apply intent_patterns_keys_nodup. }
  destruct (Dict.max_key d) as [k|] eqn:Hmax.
  2:{ destruct d; [discriminate Hkeys | discriminate Hmax]. }
  destruct (max_key_elem_of d k Hmax) as (v & Hin & _).
  assert (Hk : k ∈ Dict.keys intent_patterns).
  { rewrite <- Hkeys. apply list_elem_of_fmap. by exists (k, v). }
  destruct (get_is_Some k intent_patterns Hk) as [P HP].
  change (default "general_info"%string (Some k)) with k.
  rewrite (get_elem_of k v d Hnd Hin), HP.
  eexists _, P. split; [reflexivity |].
  cbn [intent confidence detected_entities all_scores default from_option id].
  auto.
Qed.

(** C3.  For every input text, [analyze_user_intent] returns a result
    (the guarded division raises nothing, also on the empty string), and in
    it the score of every pattern of the table is twice the number of its
    keywords that occur in the lowercased text plus three times the number
    of its boost keywords that occur there, divided by the larger of the
    number of words of the lowercased text and 1. *)
Theorem score_is_weighted_hits_over_words (U : unicode) (text : str) :
  exists r,
    analyze_user_intent U text = Some r
    /\ Forall (fun np : string * intent_pattern =>
                 Dict.get (fst np) (all_scores r)
                 = Some (spec_score (lower U text) (snd np)))
              intent_patterns.
Proof.
  destruct (analyze_result U text) as (r & P & Hr & Hs & _).
  exists r. split; [done |]. rewrite Hs.
  apply Forall_forall. intros [name P0] Hin. cbn [fst snd].
  apply get_elem_of.
  - rewrite scores_of_keys. apply intent_patterns_keys_nodup.
  - unfold scores_of. apply list_elem_of_fmap. by exists (name, P0).
Qed.

(** C2.  For every input text, the intent returned by
    [analyze_user_intent] is a key of the pattern table, the confidence is
    not negative, it is one of the values of [all_scores], and no value of
    [all_scores] exceeds it. *)
Theorem intent_in_table_confidence_is_max (U : unicode) (text : str) :
  exists r,
    analyze_user_intent U text = Some r
    /\ intent r ∈ Dict.keys intent_patterns
    /\ (0 <= confidence r)%Q
    /\ confidence r ∈ Dict.values (all_scores r)
    /\ Forall (fun v => (v <= confidence r)%Q) (Dict.values (all_scores r)).
Proof.
  destruct (analyze_result U text) as (r & P & Hr & Hs & Hmax & Hin & _).
  exists r. split; [done |].
  assert (Hnd : NoDup (Dict.keys (all_scores r))).
  { rewrite Hs, scores_of_keys. apply intent_patterns_keys_nodup. }
  destruct (max_key_elem_of _ _ Hmax) as (v & Hin' & Hle).
  assert (v = confidence r) as ->.
  { pose proof (get_elem_of _ _ _ Hnd Hin) as H1.
    pose proof (get_elem_of _ _ _ Hnd Hin') as H2. congruence. }
  repeat split.
  - rewrite <- (scores_of_keys (lower U text)), <- Hs.
    apply list_elem_of_fmap. by exists (intent r, confidence r).
  - rewrite Hs in Hin. unfold scores_of in Hin.
    apply list_elem_of_fmap in Hin as ([name P0] & [= _ ->] & _).
    apply spec_score_nonneg.
  - apply list_elem_of_fmap. by exists (intent r, confidence r).
  - unfold Dict.values. by apply Forall_fmap.
Qed.

Lemma hit_count_none (kws : list str) (text : str) :
  Forall (fun kw => contains kw text = false) kws -> hit_count kws text = 0%nat.
Proof.
  unfold hit_count. induction 1 as [|kw kws Hkw _ IH]; simpl; [done |].
  by rewrite Hkw.
Qed.

Lemma no_hits_score (text : str) (np : string * intent_pattern) :
  no_hits text -> np ∈ intent_patterns -> (spec_score text (snd np) == 0)%Q.
Proof.
  intros Hno Hin. unfold no_hits in Hno.
  rewrite Forall_forall in Hno. specialize (Hno np Hin).
  apply Forall_app in Hno as [Hk Hb].
  unfold spec_score. rewrite (hit_count_none _ _ Hk), (hit_count_none _ _ Hb).
  change (inject_Z (Z.of_nat 0 * 2 + Z.of_nat 0 * 3)) with 0%Q.
  unfold Qdiv. apply Qmult_0_l.
Qed.

(** C1.  When no keyword and no boost keyword of any pattern occurs in the
    lowercased text, every score is 0 and [analyze_user_intent] returns the
    first key of the table, [ticket_purchase], with confidence 0: the
    fallback to [general_info] is taken only for an empty score table. *)
Theorem no_hits_selects_first_pattern (U : unicode) (text : str) :
  no_hits (lower U text) ->
  exists r,
    analyze_user_intent U text = Some r
    /\ intent r = "ticket_purchase"%string
    /\ (confidence r == 0)%Q.
Proof.
  intros Hno.
  destruct (analyze_result U text) as (r & P & Hr & Hs & Hmax & Hin & _).
  exists r. split; [done |].
  assert (Hzero : Forall (fun kv : string * Q => (snd kv == 0)%Q) (all_scores r)).
  { rewrite Hs. unfold scores_of. apply Forall_fmap, Forall_forall.
    intros np Hnp. by apply no_hits_score. }
  split.
  - rewrite Hs in Hmax, Hzero. unfold scores_of, intent_patterns in Hmax, Hzero.
    rewrite map_cons in Hmax, Hzero. cbn [Dict.max_key fst snd] in Hmax.
    apply Forall_cons in Hzero as [H0 Hrest]. cbn [fst snd] in H0.
    rewrite fold_pick_first in Hmax; [by injection Hmax |].
    eapply Forall_impl; [exact Hrest |].
    intros kv Hkv. cbn [snd]. rewrite Hkv, H0. apply Qle_refl.
  - rewrite Forall_forall in Hzero. exact (Hzero _ Hin).
Qed.

Lemma no_hits_selects_first_pattern_witness :
  no_hits (lower latin1 (py "xyz"))
  /\ exists r,
       analyze_user_intent latin1 (py "xyz") = Some r
       /\ intent r = "ticket_purchase"%string
       /\ (confidence r == 0)%Q.
Proof.
  assert (H : no_hits (lower latin1 (py "xyz"))).
  { apply (bool_decide_unpack _). vm_compute. reflexivity. }
  split; [exact H | exact (no_hits_selects_first_pattern latin1 (py "xyz") H)].
Defined.

(** The same on one text, by evaluation: a message without any keyword is
    classified as a ticket purchase. *)
Example analyze_without_keywords :
  (intent <$> analyze_user_intent latin1 (py "xyz")) = Some "ticket_purchase"%string
  /\ (intent <$> analyze_user_intent latin1 (py "")) = Some "ticket_purchase"%string.
Proof. split; vm_compute; reflexivity. Qed.

Example analyze_ticket_question :
  (fun r => (intent r, confidence r)) <$>
    analyze_user_intent latin1 (py "How do I buy tickets with UPI?")
  = Some ("ticket_purchase"%string, (5 # 7)%Q).
Proof. vm_compute. reflexivity. Qed.

(** ** The entity extractor *)

Lemma store_if_requested_dom (key : string) (entity_types : list string)
    (found : option str) (entities : gmap string str) :
  dom entities ⊆ (list_to_set entity_types : gset string) ->
  dom (if bool_decide (key ∈ entity_types)
       then match found with
            | Some g => <[key := g]> entities
            | None => entities
            end
       else entities)
  ⊆ (list_to_set entity_types : gset string).
Proof.
  intros Hdom. case_bool_decide as Hkey; [| done].
  destruct found as [g|]; [| done].
  rewrite dom_insert_L. apply union_subseteq. split; [| done].
  apply singleton_subseteq_l. by apply elem_of_list_to_set.
Qed.

Lemma extract_entities_dom (U : unicode) (text : str) (entity_types : list string) :
  dom (_extract_entities U text entity_types)
  ⊆ (list_to_set entity_types : gset string).
Proof.
  unfold _extract_entities. cbv zeta.
  do 4 apply store_if_requested_dom.
  rewrite dom_empty_L. apply empty_subseteq.
Qed.

(** C8.  For every text and every list of requested entity names, each key
    of the mapping returned by [_extract_entities] is in the requested list;
    and each key of the entities returned by [analyze_user_intent] is
    declared by the winning pattern. *)
Theorem extracted_keys_are_requested (U : unicode) (text : str)
    (entity_types : list string) :
  dom (_extract_entities U text entity_types)
    ⊆ (list_to_set entity_types : gset string)
  /\ exists r P,
       analyze_user_intent U text = Some r
       /\ Dict.get (intent r) intent_patterns = Some P
       /\ dom (detected_entities r) ⊆ (list_to_set (entities P) : gset string).
Proof.
  split; [apply extract_entities_dom |].
  destruct (analyze_result U text) as (r & P & Hr & _ & _ & _ & HP & He).
  exists r, P. repeat split; [done | done |].
  rewrite He. apply extract_entities_dom.
Qed.

Example extract_only_requested :
  _extract_entities latin1 (py "Pay â‚¹1,500 by UPI, token id: 42, code 123456")
                    ["payment_method"; "totp_code"]%string
  = {[ "payment_method"%string := py "upi"; "totp_code"%string := py "123456" ]}.
Proof. vm_compute. reflexivity. Qed.

Example extract_all_kinds :
  _extract_entities latin1 (py "Pay â‚¹1,500 by UPI, token id: 42, code 123456")
                    ["price"; "payment_method"; "token_id"; "totp_code"]%string
  = {[ "price"%string := py "1,500"; "payment_method"%string := py "upi";
       "token_id"%string := py "42"; "totp_code"%string := py "123456" ]}.
Proof. vm_compute. reflexivity. Qed.

(** C4.  On the text [₹500] with the requested list [price], the price
    pattern finds nothing and the result is the empty mapping, whatever the
    Unicode database: the pattern demands the two characters U+00E2 U+201A
    before the digits, and the text has the rupee sign U+20B9 there. *)
Theorem extract_price_after_rupee_sign (U : unicode) :
  _extract_entities U (py "₹500") ["price"%string] = ∅
  /\ _extract_entities U (py "₹500") ["price"%string]
     <> {[ "price"%string := py "500" ]}.
Proof.
  assert (H : _extract_entities U (py "₹500") ["price"%string] = ∅).
  { vm_compute. reflexivity. }
  split; [exact H |]. rewrite H. intros Heq.
  apply (f_equal (fun m : gmap string str => m !! "price"%string)) in Heq.
  rewrite lookup_empty, lookup_singleton_eq in Heq. discriminate.
Qed.

(** The sentence of the repository's own test, and the text on which the
    pattern as written does find the digits. *)
Example extract_price_test_sentence :
  _extract_entities latin1 (py "I want to buy a ticket for ₹500") ["price"%string] = ∅.
Proof. vm_compute. reflexivity. Qed.

Example extract_price_after_mojibake :
  _extract_entities latin1 (py "â‚¹500") ["price"%string]
  = {[ "price"%string := py "500" ]}.
Proof. vm_compute. reflexivity. Qed.

(** ** Turn dispatch *)

Lemma any_in_spec (kws : list string) (text : str) :
  any_in kws text = true
  <-> Exists (fun kw => contains (py kw) text = true) kws.
Proof.
  unfold any_in. induction kws as [|kw kws IH]; cbn [existsb].
  - rewrite Exists_nil. split; [discriminate | done].
  - rewrite Exists_cons, orb_true_iff, IH. done.
Qed.

Lemma quick_topics_canned (T : prose) (topic : string) :
  topic ∈ map snd shortcuts -> get_quick_response T topic = quick_body T topic.
Proof.
  unfold shortcuts. cbn [map snd]. intros Hin.
  repeat (apply elem_of_cons in Hin as [-> | Hin]; [reflexivity |]).
  by apply elem_of_nil in Hin.
Qed.

(** C5.  When the message is not blank and its lowered, stripped text
    contains a keyword of one of the six shortcut sets, [chat] answers with
    the canned response of one of the six topics and returns the object
    exactly as it received it: the conversation history is untouched and no
    call to the completion service is recorded. *)
Theorem shortcut_answers_canned_keeps_state (U : unicode) (T : prose)
    (g4f_create : list message -> completion) (self : bot) (user_input : str)
    (current_page : option str) :
  strip user_input <> [] ->
  triggers_shortcut U user_input ->
  exists topic,
    topic ∈ map snd shortcuts
    /\ fst (chat U T g4f_create self user_input current_page)
       = get_quick_response T topic
    /\ get_quick_response T topic = quick_body T topic
    /\ snd (chat U T g4f_create self user_input current_page) = self.
Proof.
  intros Hblank Htrig. unfold chat.
  rewrite bool_decide_eq_false_2 by done. cbv zeta.
  unfold triggers_shortcut, shortcuts in Htrig.
  repeat rewrite Exists_cons in Htrig. rewrite Exists_nil in Htrig.
  cbn [fst] in Htrig. repeat rewrite <- any_in_spec in Htrig.
  assert (Hcanned : forall topic, topic ∈ map snd shortcuts ->
            exists topic',
              topic' ∈ map snd shortcuts
              /\ fst (get_quick_response T topic, self) = get_quick_response T topic'
              /\ get_quick_response T topic' = quick_body T topic'
              /\ snd (get_quick_response T topic, self) = self).
  { intros topic Hin. exists topic. repeat split; try done.
    by apply quick_topics_canned. }
  repeat match goal with
         | |- context [if any_in ?kws ?t then _ else _] =>
             destruct (any_in kws t) eqn:?;
             [apply Hcanned; apply (bool_decide_unpack _); by vm_compute |]
         end.
  exfalso. intuition congruence.
Qed.

Lemma shortcut_answers_canned_keeps_state_witness :
  strip (py "Hello! I'm new to TruePass") <> []
  /\ triggers_shortcut latin1 (py "Hello! I'm new to TruePass")
  /\ exists topic,
       topic ∈ map snd shortcuts
       /\ fst (chat latin1 plain (fun _ => inl (py "unused")) (init 0 (py "s1"))
                    (py "Hello! I'm new to TruePass") None)
          = get_quick_response plain topic
       /\ get_quick_response plain topic = quick_body plain topic
       /\ snd (chat latin1 plain (fun _ => inl (py "unused")) (init 0 (py "s1"))
                    (py "Hello! I'm new to TruePass") None)
          = init 0 (py "s1").
Proof.
  assert (H1 : strip (py "Hello! I'm new to TruePass") <> []).
  { vm_compute. discriminate. }
  assert (H2 : triggers_shortcut latin1 (py "Hello! I'm new to TruePass")).
  { apply (bool_decide_unpack _). by vm_compute. }
  split; [exact H1 |]. split; [exact H2 |].
  exact (shortcut_answers_canned_keeps_state latin1 plain
           (fun _ => inl (py "unused")) (init 0 (py "s1"))
           (py "Hello! I'm new to TruePass") None H1 H2).
Defined.

(** ** The full pipeline *)

(** The object as [get_contextual_response] has it after the page update. *)
Lemma page_update_history (page : option str) (self : bot) :
  conversation_history (if truthy page then set_current_page page self else self)
  = conversation_history self.
Proof. by destruct (truthy page). Qed.

Lemma build_messages_page_update (T : prose) (page : option str) (self : bot)
    (analysis : intent_result) (user_input : str) (current_page : option str) :
  build_messages T (if truthy page then set_current_page page self else self)
                 analysis user_input current_page
  = build_messages T self analysis user_input current_page.
Proof. by destruct (truthy page). Qed.

(** What one call does, by the outcome of the completion service. *)
Lemma get_contextual_response_outcome (U : unicode) (T : prose)
    (g4f_create : list message -> completion) (self : bot) (user_input : str)
    (current_page : option str) (analysis : intent_result) :
  analyze_user_intent U user_input = Some analysis ->
  let messages := build_messages T self analysis user_input current_page in
  let paged := if truthy current_page
               then set_current_page current_page self else self in
  get_contextual_response U T g4f_create self user_input current_page
  = match g4f_create messages with
    | inr e => (error_response e, record_call messages paged)
    | inl response =>
        (response,
         set_last_topic (intent analysis)
           (append_history {| role := "assistant"; content := response |}
              (append_history {| role := "user"; content := user_input |}
                 (record_call messages paged))))
    end.
Proof.
  intros Ha. unfold get_contextual_response. rewrite Ha. cbv zeta.
  rewrite build_messages_page_update. by destruct (g4f_create _).
Qed.

(** C6.  When the completion call of [get_contextual_response] raises, the
    method returns the fixed apology followed by the text of the exception,
    and the conversation history is what it was before the call. *)
Theorem completion_failure_apologizes_keeps_history (U : unicode) (T : prose)
    (g4f_create : list message -> completion) (self : bot) (user_input : str)
    (current_page : option str) (analysis : intent_result) (e : str) :
  analyze_user_intent U user_input = Some analysis ->
  g4f_create (build_messages T self analysis user_input current_page) = inr e ->
  fst (get_contextual_response U T g4f_create self user_input current_page)
  = apology ++ e
  /\ conversation_history
       (snd (get_contextual_response U T g4f_create self user_input current_page))
     = conversation_history self.
Proof.
  intros Ha He.
  rewrite (get_contextual_response_outcome U T g4f_create self user_input
             current_page analysis Ha).
  cbv zeta. rewrite He. cbn [fst snd]. split; [done |].
  unfold record_call. cbn [conversation_history]. apply page_update_history.
Qed.

(** One answered call appends the user turn and then the assistant turn. *)
Lemma answered_call_history (U : unicode) (T : prose)
    (g4f_create : list message -> completion) (self : bot)
    (user_input response : str) (current_page : option str)
    (analysis : intent_result) :
  analyze_user_intent U user_input = Some analysis ->
  g4f_create (build_messages T self analysis user_input current_page)
    = inl response ->
  conversation_history
    (snd (get_contextual_response U T g4f_create self user_input current_page))
  = conversation_history self ++ turn_entries (user_input, response).
Proof.
  intros Ha Hr.
  rewrite (get_contextual_response_outcome U T g4f_create self user_input
             current_page analysis Ha).
  cbv zeta. rewrite Hr. cbn [fst snd].
  unfold set_last_topic, append_history, record_call, turn_entries.
  cbn [conversation_history fst snd].
  rewrite page_update_history. by rewrite <- app_assoc.
Qed.

Lemma full_turns_history (U : unicode) (T : prose) (self self' : bot)
    (log : list (str * str)) :
  full_turns U T self log self' ->
  conversation_history self'
  = conversation_history self ++ flat_map turn_entries log.
Proof.
  induction 1 as [self | self self' self'' g user_input response page analysis
                          log Ha Hr Hstep _ IH].
  - by rewrite app_nil_r.
  - rewrite IH, <- Hstep.
    rewrite (answered_call_history U T g self user_input response page analysis Ha Hr).
    by rewrite <- app_assoc.
Qed.

Lemma transcript_length (log : list (str * str)) :
  length (flat_map turn_entries log) = (2 * length log)%nat.
Proof. induction log as [|turn log IH]; simpl; [done | lia]. Qed.

(** C7.  After [N] answered calls of [get_contextual_response] on a new
    chatbot, the conversation history is, turn by turn and oldest first, the
    user message followed by the completion; its length is [2 * N]. *)
Theorem history_after_full_turns (U : unicode) (T : prose) (start : Z)
    (sid : str) (log : list (str * str)) (self : bot) :
  full_turns U T (init start sid) log self ->
  conversation_history self = flat_map turn_entries log
  /\ length (conversation_history self) = (2 * length log)%nat.
Proof.
  intros Hrun. apply full_turns_history in Hrun. cbn [init conversation_history] in Hrun.
  rewrite app_nil_l in Hrun. rewrite Hrun. split; [done | apply transcript_length].
Qed.

Lemma completion_failure_apologizes_keeps_history_witness :
  exists analysis,
    analyze_user_intent latin1 (py "Tell me a story") = Some analysis
    /\ (fun _ : list message => inr (py "timeout") : completion)
         (build_messages plain (init 0 (py "s1")) analysis
                         (py "Tell me a story") (Some (py "home")))
       = inr (py "timeout")
    /\ fst (get_contextual_response latin1 plain (fun _ => inr (py "timeout"))
              (init 0 (py "s1")) (py "Tell me a story") (Some (py "home")))
       = apology ++ py "timeout"
    /\ conversation_history
         (snd (get_contextual_response latin1 plain (fun _ => inr (py "timeout"))
                 (init 0 (py "s1")) (py "Tell me a story") (Some (py "home"))))
       = conversation_history (init 0 (py "s1")).
Proof.
  eexists. split; [vm_compute; reflexivity |]. split; [reflexivity |].
  eapply (completion_failure_apologizes_keeps_history latin1 plain
           (fun _ => inr (py "timeout")) (init 0 (py "s1"))
           (py "Tell me a story") (Some (py "home")) _ (py "timeout"));
    [vm_compute; reflexivity | reflexivity].
Defined.

Lemma history_after_full_turns_witness :
  exists self,
    full_turns latin1 plain (init 0 (py "s1"))
               [(py "Tell me a story", py "Once upon a time");
                (py "And another one", py "There was a ticket")] self
    /\ conversation_history self
       = flat_map turn_entries
           [(py "Tell me a story", py "Once upon a time");
            (py "And another one", py "There was a ticket")]
    /\ length (conversation_history self) = (2 * 2)%nat.
Proof.
  eexists.
  refine (let H := _ in
          conj H (history_after_full_turns latin1 plain 0 (py "s1") _ _ H)).
  eapply (turns_step latin1 plain _ _ _ (fun _ => inl (py "Once upon a time"))
            _ _ None);
    [vm_compute; reflexivity | reflexivity | reflexivity |].
  eapply (turns_step latin1 plain _ _ _ (fun _ => inl (py "There was a ticket"))
            _ _ (Some (py "home")));
    [vm_compute; reflexivity | reflexivity | reflexivity |].
  apply turns_done.
Defined.

(** ** Session export *)

(** [export_session_data] raises nothing and leaves the object as it is. *)
Lemma export_read_only (now : nat -> Z) (self : bot) :
  exists data, export_session_data now self = Some (data, self).
Proof.
  unfold export_session_data. case_bool_decide as Hfb.
  - eexists. reflexivity.
  - unfold truediv.
    destruct (Z.eqb_spec (Z.of_nat (length (user_feedback self))) 0) as [H0 | _].
    + destruct (user_feedback self); [done | discriminate H0].
    + eexists. reflexivity.
Qed.

(** C9.  With an empty feedback log, [export_session_data] returns its
    aggregate with [average_rating] being [None], raising nothing, and the
    object (conversation history, user context and feedback log included)
    is unchanged. *)
Theorem export_without_feedback (now : nat -> Z) (self : bot) :
  user_feedback self = [] ->
  exists data,
    export_session_data now self = Some (data, self)
    /\ average_rating (export_feedback data) = None
    /\ feedback_entries (export_feedback data) = [].
Proof.
  intros Hfb. unfold export_session_data.
  rewrite bool_decide_eq_true_2 by done.
  eexists. split; [reflexivity |]. by cbn.
Qed.

Lemma export_without_feedback_witness :
  user_feedback (init 0 (py "s1")) = []
  /\ exists data,
       export_session_data (fun k => Z.of_nat k + 60)%Z (init 0 (py "s1"))
       = Some (data, init 0 (py "s1"))
       /\ average_rating (export_feedback data) = None
       /\ feedback_entries (export_feedback data) = [].
Proof.
  split; [reflexivity |].
  apply (export_without_feedback (fun k => Z.of_nat k + 60)%Z (init 0 (py "s1"))).
  reflexivity.
Defined.

Example export_average_of_two :
  let self := snd (add_user_feedback 2 (snd (add_user_feedback 1 (init 0 (py "s1"))
                     (py "m1") 5 None)) (py "m2") 4 (Some (py "fine"))) in
  (fun out : session_export * bot =>
     (average_rating (export_feedback (fst out)), snd out))
    <$> export_session_data (fun _ => 60%Z) self
  = Some (Some (9 # 2)%Q, self).
Proof. vm_compute. reflexivity. Qed.

(** ** The user context across a call *)

(** C10, as stated, fails on an argument that is present but empty: the
    page is recorded under [if current_page:], so the empty string leaves
    [user_context["current_page"]] as it was. *)
Lemma empty_page_is_not_recorded :
  ~ (current_page
       (user_context
          (snd (get_contextual_response latin1 plain (fun _ => inr (py "timeout"))
                  (init 0 (py "s1")) (py "Tell me a story") (Some []))))
     = Some []).
Proof. vm_compute. discriminate. Qed.

(** C10, amended.  For every call of [get_contextual_response] whose
    [current_page] argument is a string that is not empty,
    [user_context["current_page"]] is that argument after the call, whether
    the completion call answers or raises; [user_context["last_topic"]] is
    the winning intent when the completion call answers and is unchanged
    when it raises. *)
Theorem page_recorded_topic_only_on_success (U : unicode) (T : prose)
    (g4f_create : list message -> completion) (self : bot) (user_input : str)
    (page : option str) (analysis : intent_result) :
  truthy page = true ->
  analyze_user_intent U user_input = Some analysis ->
  let self' := snd (get_contextual_response U T g4f_create self user_input page) in
  current_page (user_context self') = page
  /\ last_topic (user_context self')
     = match g4f_create (build_messages T self analysis user_input page) with
       | inl _ => Some (intent analysis)
       | inr _ => last_topic (user_context self)
       end.
Proof.
  intros Hpage Ha.
  rewrite (get_contextual_response_outcome U T g4f_create self user_input
             page analysis Ha).
  cbv zeta. rewrite Hpage.
  by destruct (g4f_create _).
Qed.

Lemma page_recorded_topic_only_on_success_witness :
  exists analysis,
    truthy (Some (py "marketplace")) = true
    /\ analyze_user_intent latin1 (py "Tell me a story") = Some analysis
    /\ current_page
         (user_context
            (snd (get_contextual_response latin1 plain
                    (fun _ => inr (py "timeout")) (init 0 (py "s1"))
                    (py "Tell me a story") (Some (py "marketplace")))))
       = Some (py "marketplace")
    /\ last_topic
         (user_context
            (snd (get_contextual_response latin1 plain
                    (fun _ => inr (py "timeout")) (init 0 (py "s1"))
                    (py "Tell me a story") (Some (py "marketplace")))))
       = last_topic (user_context (init 0 (py "s1"))).
Proof.
  eexists. split; [reflexivity |]. split; [vm_compute; reflexivity |].
  eapply (page_recorded_topic_only_on_success latin1 plain
            (fun _ => inr (py "timeout")) (init 0 (py "s1"))
            (py "Tell me a story") (Some (py "marketplace")) _);
    [reflexivity | vm_compute; reflexivity].
Defined.

Example answered_call_sets_topic :
  (fun self => (length (conversation_history self),
                current_page (user_context self),
                last_topic (user_context self),
                length (completion_calls self)))
    (snd (get_contextual_response latin1 plain (fun _ => inl (py "Sure."))
            (init 0 (py "s1")) (py "which nft collection is new?")
            (Some (py "marketplace"))))
  = (2%nat, Some (py "marketplace"), Some "nft_marketplace"%string, 1%nat).
Proof. vm_compute. reflexivity. Qed.

Example shortcut_records_no_call :
  snd (chat latin1 plain (fun _ => inl (py "Sure.")) (init 0 (py "s1"))
            (py "My payment failed, help!") (Some (py "checkout")))
  = init 0 (py "s1").
Proof. vm_compute. reflexivity. Qed.

(** * Further properties *)

(** ** The intent scorer: ties, zero confidence, bounds *)

Lemma pick_cases (best kv : string * Q) :
  (Dict.pick best kv = best /\ (snd kv <= snd best)%Q)
  \/ (Dict.pick best kv = kv /\ (snd best < snd kv)%Q).
Proof.
  unfold Dict.pick. destruct (Qcompare (snd best) (snd kv)) eqn:Hc.
  - apply Qeq_alt in Hc. left. split; [done |]. rewrite Hc. apply Qle_refl.
  - apply Qlt_alt in Hc. by right.
  - apply Qgt_alt in Hc. left. split; [done | by apply Qlt_le_weak].
Qed.

Lemma fold_pick_split (d : Dict.dict Q) (best : string * Q) :
  (fold_left Dict.pick d best = best
   /\ Forall (fun kv => (snd kv <= snd best)%Q) d)
  \/ exists d1 d2,
       d = d1 ++ fold_left Dict.pick d best :: d2
       /\ (snd best < snd (fold_left Dict.pick d best))%Q
       /\ Forall (fun kv => (snd kv < snd (fold_left Dict.pick d best))%Q) d1
       /\ Forall (fun kv => (snd kv <= snd (fold_left Dict.pick d best))%Q) d2.
Proof.
  revert best. induction d as [|kv d IH]; intros best; cbn [fold_left].
  - left. split; [done | constructor].
  - destruct (pick_cases best kv) as [[-> Hle] | [-> Hlt]].
    + destruct (IH best) as [[Hr Hle'] | (d1 & d2 & Hd & Hlt & H1 & H2)].
      * left. split; [done |]. by constructor.
      * right. exists (kv :: d1), d2. split; [by rewrite Hd at 1 |].
        split; [done |]. split; [| done]. constructor; [| done].
        by eapply Qle_lt_trans.
    + right.
      destruct (IH kv) as [[Hr Hle] | (d1 & d2 & Hd & Hlt' & H1 & H2)].
      * exists [], d. rewrite Hr. repeat split; [done | constructor | done].
      * exists (kv :: d1), d2. split; [by rewrite Hd at 1 |].
        split; [by eapply Qlt_trans |]. split; [| done]. by constructor.
Qed.

Lemma max_key_split (d : Dict.dict Q) (k : string) :
  Dict.max_key d = Some k ->
  exists v d1 d2,
    d = d1 ++ (k, v) :: d2
    /\ Forall (fun kv => (snd kv < v)%Q) d1
    /\ Forall (fun kv => (snd kv <= v)%Q) d2.
Proof.
  destruct d as [|kv d]; cbn [Dict.max_key]; [done |].
  intros [= <-]. exists (snd (fold_left Dict.pick d kv)).
  rewrite <- surjective_pairing.
  destruct (fold_pick_split d kv) as [[Hr Hle] | (d1 & d2 & Hd & Hlt & H1 & H2)].
  - exists [], d. rewrite Hr. repeat split; [constructor | done].
  - exists (kv :: d1), d2. split; [by rewrite Hd at 1 |].
    split; [by constructor | done].
Qed.

(** X1.  The winning intent is the first one, in the order of the table,
    whose score is maximal: every intent listed before it in [all_scores]
    has a strictly smaller score, every intent after it a score that is not
    larger. *)
Theorem winner_is_first_maximum (U : unicode) (text : str) :
  exists r before_winner after_winner,
    analyze_user_intent U text = Some r
    /\ all_scores r = before_winner ++ (intent r, confidence r) :: after_winner
    /\ Forall (fun kv => (snd kv < confidence r)%Q) before_winner
    /\ Forall (fun kv => (snd kv <= confidence r)%Q) after_winner.
Proof.
  destruct (analyze_result U text) as (r & P & Hr & Hs & Hmax & Hin & _).
  assert (Hnd : NoDup (Dict.keys (all_scores r))).
  { rewrite Hs, scores_of_keys. apply intent_patterns_keys_nodup. }
  destruct (max_key_split _ _ Hmax) as (v & d1 & d2 & Hd & H1 & H2).
  assert (v = confidence r) as ->.
  { pose proof (get_elem_of _ _ _ Hnd Hin) as Hget.
    rewrite (get_elem_of _ v _ Hnd) in Hget; [congruence |].
    rewrite Hd. apply elem_of_app. right. apply elem_of_cons. by left. }
  by exists r, d1, d2.
Qed.

Lemma hit_count_zero_iff (kws : list str) (text : str) :
  hit_count kws text = 0%nat <-> Forall (fun kw => contains kw text = false) kws.
Proof.
  split; [| apply hit_count_none].
  unfold hit_count. induction kws as [|kw kws IH]; cbn [List.filter]; [constructor |].
  destruct (contains kw text) eqn:Hkw; [discriminate |].
  intros H0. constructor; [done | by apply IH].
Qed.

Lemma ratio_zero_iff (n d : Z) :
  (0 < d)%Z -> (inject_Z n / inject_Z d == 0)%Q <-> n = 0%Z.
Proof.
  intros Hd. assert (Hd' : ~ (inject_Z d == 0)%Q).
  { change 0%Q with (inject_Z 0). rewrite inject_Z_injective. lia. }
  split.
  - intros H0. apply inject_Z_injective. change (inject_Z 0) with 0%Q.
    transitivity (inject_Z d * (inject_Z n / inject_Z d))%Q.
    + symmetry. by apply Qmult_div_r.
    + setoid_rewrite H0. apply Qmult_0_r.
  - intros ->. unfold Qdiv. apply Qmult_0_l.
Qed.

Lemma spec_score_zero_iff (text : str) (P : intent_pattern) :
  (spec_score text P == 0)%Q
  <-> Forall (fun kw => contains kw text = false)
             (keywords P ++ confidence_boost P).
Proof.
  unfold spec_score. rewrite ratio_zero_iff by lia.
  rewrite Forall_app, <- !hit_count_zero_iff. lia.
Qed.

(** X2.  The confidence returned by [analyze_user_intent] is 0 exactly when
    no keyword and no boost keyword of any pattern occurs in the lowercased
    text; as soon as one occurs, the confidence is positive. *)
Theorem confidence_zero_iff_no_hits (U : unicode) (text : str) :
  exists r,
    analyze_user_intent U text = Some r
    /\ ((confidence r == 0)%Q <-> no_hits (lower U text))
    /\ (~ no_hits (lower U text) -> (0 < confidence r)%Q).
Proof.
  destruct (analyze_result U text) as (r & P & Hr & Hs & Hmax & Hin & _).
  exists r. split; [done |].
  destruct (max_key_elem_of _ _ Hmax) as (v & Hin' & Hle).
  assert (Hnd : NoDup (Dict.keys (all_scores r))).
  { rewrite Hs, scores_of_keys. apply intent_patterns_keys_nodup. }
  assert (v = confidence r) as ->.
  { pose proof (get_elem_of _ _ _ Hnd Hin) as H1.
    pose proof (get_elem_of _ _ _ Hnd Hin') as H2. congruence. }
  assert (Hiff : (confidence r == 0)%Q <-> no_hits (lower U text)).
  { split.
    - intros H0. unfold no_hits. apply Forall_forall. intros np Hnp.
      apply spec_score_zero_iff. apply Qle_antisym; [| apply spec_score_nonneg].
      rewrite <- H0. rewrite Forall_forall in Hle.
      apply (Hle (fst np, spec_score (lower U text) (snd np))).
      rewrite Hs. unfold scores_of. apply list_elem_of_fmap. by exists np.
    - intros Hno. rewrite Hs in Hin. unfold scores_of in Hin.
      apply list_elem_of_fmap in Hin as (np & [= _ ->] & Hnp).
      by apply no_hits_score. }
  split; [exact Hiff |].
  intros Hhit.
  destruct (Qlt_le_dec 0 (confidence r)) as [Hpos | Hneg]; [done |].
  exfalso. apply Hhit, Hiff. apply Qle_antisym; [done |].
  rewrite Hs in Hin. unfold scores_of in Hin.
  apply list_elem_of_fmap in Hin as (np & [= _ ->] & Hnp).
  apply spec_score_nonneg.
Qed.

Lemma hit_count_le_length (kws : list str) (text : str) :
  (hit_count kws text <= length kws)%nat.
Proof.
  unfold hit_count. induction kws as [|kw kws IH]; cbn [List.filter length]; [done |].
  destruct (contains kw text); cbn [length]; lia.
Qed.

Lemma pattern_weights_bounded :
  Forall (fun np : string * intent_pattern =>
            (2 * length (keywords (snd np))
             + 3 * length (confidence_boost (snd np)) <= 26)%nat)
         intent_patterns.
Proof. apply (bool_decide_unpack _). by vm_compute. Qed.

(** X3.  [all_scores] lists the eight intents in the order of the pattern
    table, and every score lies between 0 and 26 (the weight of all keywords
    of the richest pattern): the confidence is not a probability. *)
Theorem scores_listed_in_table_order_and_bounded (U : unicode) (text : str) :
  exists r,
    analyze_user_intent U text = Some r
    /\ Dict.keys (all_scores r) = Dict.keys intent_patterns
    /\ Forall (fun v => (0 <= v)%Q /\ (v <= 26)%Q) (Dict.values (all_scores r)).
Proof.
  destruct (analyze_result U text) as (r & P & Hr & Hs & _).
  exists r. split; [done |]. rewrite Hs. split; [apply scores_of_keys |].
  unfold Dict.values, scores_of. rewrite map_map. apply Forall_fmap.
  eapply Forall_impl; [apply pattern_weights_bounded |].
  intros [name P0] Hw. cbn [fst snd compose] in *. split; [apply spec_score_nonneg |].
  unfold spec_score. apply Qle_shift_div_r.
  - change 0%Q with (inject_Z 0). rewrite <- Zlt_Qlt. lia.
  - change 26%Q with (inject_Z 26). rewrite <- inject_Z_mult, <- Zle_Qle.
    pose proof (hit_count_le_length (keywords P0) (lower U text)).
    pose proof (hit_count_le_length (confidence_boost P0) (lower U text)).
    nia.
Qed.

Example confidence_above_one :
  confidence <$> analyze_user_intent latin1 (py "UPI") = Some (3 # 1)%Q.
Proof. vm_compute. reflexivity. Qed.

(** ** The entity extractor: one rule per key *)

Lemma store_if_requested_lookup (key k : string) (entity_types : list string)
    (found : option str) (entities : gmap string str) :
  (if bool_decide (k ∈ entity_types)
   then match found with
        | Some g => <[k := g]> entities
        | None => entities
        end
   else entities) !! key
  = if bool_decide (key = k /\ k ∈ entity_types /\ is_Some found)
    then found else entities !! key.
Proof.
  case_bool_decide as Hk; [destruct found as [g|] |].
  - destruct (decide (key = k)) as [-> | Hne].
    + rewrite lookup_insert_eq, bool_decide_eq_true_2; [done |].
      split; [done |]. split; [done | by eexists].
    + rewrite lookup_insert_ne by done.
      rewrite bool_decide_eq_false_2; [done | tauto].
  - rewrite bool_decide_eq_false_2; [done |]. intros (_ & _ & [? ?]). done.
  - rewrite bool_decide_eq_false_2; [done | tauto].
Qed.

Ltac skip_other_keys :=
  repeat match goal with
         | |- context [bool_decide (?a = ?b /\ ?c)] =>
             rewrite (bool_decide_eq_false_2 (a = b /\ c)) by (intros [? _]; done)
         end.

Ltac settle_own_key :=
  case_bool_decide; case_bool_decide;
  [ done
  | tauto
  | match goal with
    | |- None = ?found =>
        destruct found eqn:?; [exfalso; intuition eauto | done]
    end
  | done ].

Lemma extract_entities_lookup (U : unicode) (text : str)
    (entity_types : list string) (key : string) :
  _extract_entities U text entity_types !! key
  = if bool_decide (key ∈ entity_types) then entity_rule U text key else None.
Proof.
  unfold _extract_entities. cbv zeta.
  rewrite !store_if_requested_lookup, lookup_empty. unfold entity_rule.
  destruct (String.eqb_spec key "price") as [-> | Hprice];
    [skip_other_keys; settle_own_key |].
  destruct (String.eqb_spec key "payment_method") as [-> | Hpay];
    [skip_other_keys; settle_own_key |].
  destruct (String.eqb_spec key "token_id") as [-> | Htoken];
    [skip_other_keys; settle_own_key |].
  destruct (String.eqb_spec key "totp_code") as [-> | Htotp];
    [skip_other_keys; settle_own_key |].
  skip_other_keys. by destruct (bool_decide _).
Qed.

(** X4.  [_extract_entities] decides every key on its own: the value under
    a key is what the rule of that key finds when the key is requested, and
    the key is absent when it is not requested, whatever else is requested
    or found.  Requesting more names therefore only adds entries. *)
Theorem entity_value_is_rule_of_requested_key (U : unicode) (text : str)
    (entity_types : list string) (key : string) :
  _extract_entities U text entity_types !! key
  = (if bool_decide (key ∈ entity_types) then entity_rule U text key else None)
  /\ forall more_types,
       entity_types ⊆ more_types ->
       _extract_entities U text entity_types ⊆ _extract_entities U text more_types.
Proof.
  split; [apply extract_entities_lookup |].
  intros more_types Hsub. apply map_subseteq_spec. intros k v.
  rewrite !extract_entities_lookup.
  case_bool_decide as Hk; [| done].
  rewrite bool_decide_eq_true_2; [done | by apply Hsub].
Qed.

(** X5.  The result of [_extract_entities] depends on the requested names
    as a set only: two lists with the same members, in any order and with
    any repetitions, give the same mapping. *)
Theorem extraction_ignores_order_of_request (U : unicode) (text : str)
    (entity_types entity_types' : list string) :
  (list_to_set entity_types : gset string) = list_to_set entity_types' ->
  _extract_entities U text entity_types = _extract_entities U text entity_types'.
Proof.
  intros Hset. apply map_eq. intros key.
  rewrite !extract_entities_lookup.
  assert (Hiff : key ∈ entity_types <-> key ∈ entity_types').
  { rewrite <- !(elem_of_list_to_set (C := gset string)). by rewrite Hset. }
  by rewrite (bool_decide_ext _ _ Hiff).
Qed.

Lemma extraction_ignores_order_of_request_witness :
  (list_to_set ["price"; "totp_code"]%string : gset string)
  = list_to_set ["totp_code"; "price"; "price"]%string
  /\ _extract_entities latin1 (py "code 123456 for â‚¹1,500")
                       ["price"; "totp_code"]%string
     = _extract_entities latin1 (py "code 123456 for â‚¹1,500")
                         ["totp_code"; "price"; "price"]%string.
Proof.
  assert (H : (list_to_set ["price"; "totp_code"]%string : gset string)
              = list_to_set ["totp_code"; "price"; "price"]%string).
  { vm_compute. reflexivity. }
  split; [exact H |].
  exact (extraction_ignores_order_of_request latin1 _ _ _ H).
Defined.

Lemma find_first_split {A : Type} (f : A -> bool) (l : list A) (x : A) :
  List.find f l = Some x
  <-> exists l1 l2,
        l = l1 ++ x :: l2 /\ f x = true /\ Forall (fun y => f y = false) l1.
Proof.
  induction l as [|y l IH]; cbn [List.find].
  - split; [done |]. intros ([|? ?] & l2 & Hl & _); discriminate.
  - destruct (f y) eqn:Hy.
    + split.
      * intros [= <-]. exists [], l. repeat split; [done | constructor].
      * intros ([|z l1] & l2 & Hl & Hx & Hl1).
        -- by injection Hl as -> _.
        -- injection Hl as -> _. apply Forall_cons in Hl1 as [Hz _]. congruence.
    + rewrite IH. split.
      * intros (l1 & l2 & -> & Hx & Hl1). exists (y :: l1), l2.
        repeat split; [done | by constructor].
      * intros ([|z l1] & l2 & Hl & Hx & Hl1).
        -- injection Hl as -> _. congruence.
        -- injection Hl as -> ->. apply Forall_cons in Hl1 as [_ Hl1]. eauto.
Qed.

(** X6.  The payment method reported by [_extract_entities] is the first of
    upi, paytm, credit card, debit card and net banking, in that order, that
    occurs in the lowercased text; it is reported exactly when the key is
    requested and one of them occurs. *)
Theorem payment_method_is_first_in_priority (U : unicode) (text : str)
    (entity_types : list string) (method : str) :
  _extract_entities U text entity_types !! "payment_method"%string = Some method
  <-> "payment_method"%string ∈ entity_types
      /\ exists earlier later,
           payment_methods = earlier ++ method :: later
           /\ contains method (lower U text) = true
           /\ Forall (fun m => contains m (lower U text) = false) earlier.
Proof.
  rewrite extract_entities_lookup.
  change (entity_rule U text "payment_method")
    with (List.find (fun m => contains m (lower U text)) payment_methods).
  case_bool_decide as Hreq.
  - rewrite find_first_split. tauto.
  - split; [done | tauto].
Qed.

Example payment_method_priority :
  _extract_entities latin1 (py "Paytm or UPI, maybe a Debit Card")
                    ["payment_method"]%string
  !! "payment_method"%string = Some (py "upi").
Proof. vm_compute. reflexivity. Qed.

(** ** The patterns: what a match consists of *)

Lemma eat_sound {A : Type} (ok : codepoint -> bool) (cu : cursor)
    (k : cursor -> option A) (a : A) :
  eat ok cu k = Some a ->
  exists c s,
    cu = {| before := before cu; after := c :: s |}
    /\ ok c = true
    /\ k {| before := c :: before cu; after := s |} = Some a.
Proof.
  unfold eat. destruct cu as [b [|c s]]; cbn [after before]; [done |].
  destruct (ok c) eqn:Hok; [| done]. intros Hk. by exists c, s.
Qed.

(** Whatever the matcher accepts is a match. *)
Lemma run_sound (U : unicode) (r : regex) :
  forall (A : Type) (cu : cursor) (k : cursor -> option A) (a : A),
    run U r cu k = Some a ->
    exists cu', derives U r cu cu' /\ k cu' = Some a.
Proof.
  induction r as [| c | | | | | r1 IH1 r2 IH2 | r1 IH1 | r1 IH1];
    intros A cu k a Hrun; cbn [run] in Hrun.
  - exists cu. split; [constructor | done].
  - apply eat_sound in Hrun as (c' & s & -> & Hc & Hk).
    apply N.eqb_eq in Hc as <-. eexists. split; [constructor | done].
  - apply eat_sound in Hrun as (c' & s & -> & Hc & Hk).
    eexists. split; [by constructor | done].
  - apply eat_sound in Hrun as (c' & s & -> & Hc & Hk).
    eexists. split; [by constructor | done].
  - apply eat_sound in Hrun as (c' & s & -> & Hc & Hk).
    eexists. split; [by constructor | done].
  - destruct (at_boundary U cu) eqn:Hb; [| done].
    exists cu. split; [by constructor | done].
  - apply IH1 in Hrun as (cu1 & H1 & Hrun).
    apply IH2 in Hrun as (cu2 & H2 & Hk).
    exists cu2. split; [by econstructor | done].
  - destruct (run U r1 cu k) as [a'|] eqn:Hr1.
    + injection Hrun as ->. apply IH1 in Hr1 as (cu1 & H1 & Hk).
      exists cu1. split; [by apply derives_opt_some | done].
    + exists cu. split; [apply derives_opt_none | done].
  - remember (length (after cu)) as fuel eqn:Hfuel. clear Hfuel.
    revert cu Hrun. induction fuel as [|fuel IHfuel]; intros cu Hrun.
    + exists cu. split; [apply derives_star_stop | done].
    + match type of Hrun with
      | match ?scrutinee with _ => _ end = _ =>
          destruct scrutinee as [a'|] eqn:Hr1
      end.
      * injection Hrun as ->. apply IH1 in Hr1 as (cu1 & H1 & Hloop).
        destruct (length (after cu1) <? length (after cu))%nat; [| done].
        apply IHfuel in Hloop as (cu2 & H2 & Hk).
        exists cu2. split; [by eapply derives_star_more | done].
      * exists cu. split; [apply derives_star_stop | done].
Qed.

(** A match consumes a part of the subject, in order. *)
Lemma derives_spells (U : unicode) (r : regex) (cu cu' : cursor) :
  derives U r cu cu' ->
  exists w,
    spells U r w /\ after cu = w ++ after cu' /\ before cu' = rev w ++ before cu.
Proof.
  induction 1 as [cu | c b s | c b s Hc | c b s Hc | c b s Hc | cu _
                  | r1 r2 cu cu1 cu2 _ IH1 _ IH2 | r cu cu' _ IH | r cu | r cu
                  | r cu cu1 cu2 _ IH1 _ IH2];
    cbn [after before].
  - exists []. split; [constructor | done].
  - exists [c]. split; [constructor | done].
  - exists [c]. split; [by constructor | done].
  - exists [c]. split; [by constructor | done].
  - exists [c]. split; [by constructor | done].
  - exists []. split; [constructor | done].
  - destruct IH1 as (w1 & Hs1 & Ha1 & Hb1), IH2 as (w2 & Hs2 & Ha2 & Hb2).
    exists (w1 ++ w2). split; [by constructor |].
    by rewrite Ha1, Ha2, Hb2, Hb1, rev_app_distr, <- !app_assoc.
  - destruct IH as (w & Hs & Ha & Hb). exists w. split; [by apply spells_opt_some | done].
  - exists []. split; [apply spells_opt_none | done].
  - exists []. split; [apply spells_star_stop | done].
  - destruct IH1 as (w1 & Hs1 & Ha1 & Hb1), IH2 as (w2 & Hs2 & Ha2 & Hb2).
    exists (w1 ++ w2). split; [by apply spells_star_more |].
    by rewrite Ha1, Ha2, Hb2, Hb1, rev_app_distr, <- !app_assoc.
Qed.

Lemma derives_boundary_inv (U : unicode) (cu cu' : cursor) :
  derives U Boundary cu cu' -> cu' = cu /\ at_boundary U cu = true.
Proof. by inversion 1. Qed.

(** A successful search: the text splits into what is skipped, what the
    prefix, the group and the suffix consume, and the rest. *)
Lemma match_at_sound (U : unicode) (p : pattern) (cu : cursor) (g : str) :
  match_at U p cu = Some g ->
  exists c1 c2 c3,
    derives U (prefix p) cu c1 /\ derives U (group1 p) c1 c2
    /\ derives U (suffix p) c2 c3 /\ after c1 = g ++ after c2.
Proof.
  unfold match_at. intros H.
  apply run_sound in H as (c1 & H1 & H).
  apply run_sound in H as (c2 & H2 & H).
  apply run_sound in H as (c3 & H3 & H).
  injection H as <-. exists c1, c2, c3. repeat split; try done.
  destruct (derives_spells _ _ _ _ H2) as (w & _ & Hw & _).
  rewrite Hw at 2. rewrite Hw, length_app, Nat.add_sub, take_app_length. done.
Qed.

Lemma search_at_sound (U : unicode) (p : pattern) (aft bef g : str) :
  search_at U p bef aft = Some g ->
  exists skipped rest,
    aft = skipped ++ rest
    /\ match_at U p {| before := rev skipped ++ bef; after := rest |} = Some g.
Proof.
  revert bef. induction aft as [|c aft IH]; intros bef; cbn [search_at].
  - destruct (match_at U p _) as [g'|] eqn:Hm; [| done].
    intros [= ->]. by exists [], [].
  - destruct (match_at U p _) as [g'|] eqn:Hm.
    + intros [= ->]. by exists [], (c :: aft).
    + intros Hs. apply IH in Hs as (skipped & rest & -> & Hm').
      exists (c :: skipped), rest. split; [done |].
      cbn [rev]. by rewrite <- app_assoc.
Qed.

Lemma search_sound (U : unicode) (p : pattern) (text g : str) :
  search U p text = Some g ->
  exists skipped wp ws rest,
    text = skipped ++ wp ++ g ++ ws ++ rest
    /\ spells U (prefix p) wp /\ spells U (group1 p) g /\ spells U (suffix p) ws
    /\ derives U (prefix p) {| before := rev skipped; after := wp ++ g ++ ws ++ rest |}
                            {| before := rev wp ++ rev skipped; after := g ++ ws ++ rest |}
    /\ derives U (suffix p)
         {| before := rev g ++ rev wp ++ rev skipped; after := ws ++ rest |}
         {| before := rev ws ++ rev g ++ rev wp ++ rev skipped; after := rest |}.
Proof.
  unfold search. intros Hs.
  apply search_at_sound in Hs as (skipped & rest0 & -> & Hm).
  rewrite app_nil_r in Hm.
  apply match_at_sound in Hm as (c1 & c2 & c3 & H1 & H2 & H3 & Hg).
  destruct (derives_spells _ _ _ _ H1) as (wp & Hsp & Hap & Hbp).
  destruct (derives_spells _ _ _ _ H2) as (wg & Hsg & Hag & Hbg).
  destruct (derives_spells _ _ _ _ H3) as (ws & Hss & Has & Hbs).
  cbn [after before] in *.
  assert (wg = g) as -> by (rewrite Hg in Hag; by apply app_inv_tail in Hag).
  destruct c1 as [b1 a1], c2 as [b2 a2], c3 as [b3 a3]. cbn [after before] in *.
  subst. exists skipped, wp, ws, a3. by repeat split.
Qed.

Lemma spells_str (U : unicode) (s w : str) : spells U (Str s) w -> w = s.
Proof.
  revert w. induction s as [|c s IH]; intros w; cbn [Str]; inversion 1; subst.
  - done.
  - match goal with H : spells U (Lit c) _ |- _ => inversion H; subst end.
    cbn [app]. f_equal. by apply IH.
Qed.

Lemma spells_star_forall (U : unicode) (r : regex) (P : codepoint -> Prop) :
  (forall w, spells U r w -> Forall P w) ->
  forall w, spells U (Star r) w -> Forall P w.
Proof.
  intros Hr w Hw. remember (Star r) as sr eqn:Hsr.
  induction Hw as [| | | | | | | | | r' | r' w1 w2 H1 _ _ IH2]; try discriminate.
  - constructor.
  - injection Hsr as ->. apply Forall_app. split; [by apply Hr | by apply IH2].
Qed.

Lemma spells_digit_inv (U : unicode) (w : str) :
  spells U Digit w -> exists c, w = [c] /\ is_decimal U c = true.
Proof. inversion 1; subst. eauto. Qed.

Lemma spells_plus_digit (U : unicode) (w : str) :
  spells U (Plus Digit) w ->
  exists d ds,
    w = d :: ds /\ is_decimal U d = true
    /\ Forall (fun c => is_decimal U c = true) ds.
Proof.
  unfold Plus. inversion 1 as [| | | | | | r1 r2 w1 w2 H1 H2 | | | |]; subst.
  apply spells_digit_inv in H1 as (d & -> & Hd). exists d, w2.
  repeat split; [done |].
  apply (spells_star_forall U Digit); [| done].
  intros w Hw. apply spells_digit_inv in Hw as (c & -> & Hc). by repeat constructor.
Qed.

Lemma spells_times_digit (U : unicode) (n : nat) (w : str) :
  spells U (Times n Digit) w ->
  length w = n /\ Forall (fun c => is_decimal U c = true) w.
Proof.
  revert w. induction n as [|n IH]; intros w; cbn [Times];
    inversion 1 as [| | | | | | r1 r2 w1 w2 H1 H2 | | | |]; subst.
  - split; [done | constructor].
  - apply spells_digit_inv in H1 as (d & -> & Hd).
    destruct (IH _ H2) as [Hlen Hall]. cbn [app length].
    split; [by rewrite Hlen | by constructor].
Qed.

(** X7.  Provided decimal digits count as word characters (as they do in
    Unicode), a one-time code reported by [_extract_entities] was requested,
    consists of exactly six decimal digits and stands in the text with no
    word character right before it and none right after it. *)
Theorem totp_code_is_six_standalone_digits (U : unicode) (text : str)
    (entity_types : list string) (code : str) :
  (forall c, is_decimal U c = true -> is_alnum U c = true) ->
  _extract_entities U text entity_types !! "totp_code"%string = Some code ->
  "totp_code"%string ∈ entity_types
  /\ length code = 6%nat
  /\ Forall (fun c => is_decimal U c = true) code
  /\ exists pre post,
       text = pre ++ code ++ post
       /\ word_at U (rev pre) = false /\ word_at U post = false.
Proof.
  intros Hdigit. rewrite extract_entities_lookup.
  case_bool_decide as Hreq; [| done].
  change (entity_rule U text "totp_code") with (search U totp_re text).
  intros Hs. split; [done |].
  apply search_sound in Hs
    as (skipped & wp & ws & rest & -> & Hp & Hg & Hsuf & Hdp & Hds).
  cbn [totp_re prefix group1 suffix] in *.
  inversion Hp; subst. inversion Hsuf; subst. cbn [app rev] in *.
  apply spells_times_digit in Hg as [Hlen Hall].
  split; [done |]. split; [done |].
  exists skipped, rest. split; [done |].
  apply derives_boundary_inv in Hdp as [_ Hb1].
  apply derives_boundary_inv in Hds as [_ Hb2].
  unfold at_boundary in Hb1, Hb2. cbn [before after] in Hb1, Hb2.
  assert (Hword : forall w, length w = 6%nat ->
                    Forall (fun c => is_decimal U c = true) w ->
                    forall tail, word_at U (w ++ tail) = true).
  { intros [|c w] Hl Hf tail; [discriminate |]. cbn [app word_at].
    apply Forall_cons in Hf as [Hc _]. unfold is_word.
    by rewrite (Hdigit c Hc). }
  rewrite (Hword code Hlen Hall) in Hb1.
  rewrite (Hword (rev code)) in Hb2;
    [| by rewrite length_rev | by apply Forall_rev].
  split.
  - by destruct (word_at U (rev skipped)).
  - by destruct (word_at U rest).
Qed.

Lemma totp_code_is_six_standalone_digits_witness :
  (forall c, is_decimal latin1 c = true -> is_alnum latin1 c = true)
  /\ _extract_entities latin1 (py "My code is 123456") ["totp_code"]%string
     !! "totp_code"%string = Some (py "123456")
  /\ "totp_code"%string ∈ ["totp_code"]%string
  /\ length (py "123456") = 6%nat
  /\ Forall (fun c => is_decimal latin1 c = true) (py "123456")
  /\ exists pre post,
       py "My code is 123456" = pre ++ py "123456" ++ post
       /\ word_at latin1 (rev pre) = false /\ word_at latin1 post = false.
Proof.
  assert (H1 : forall c, is_decimal latin1 c = true -> is_alnum latin1 c = true).
  { intros c Hc. cbn [is_alnum is_decimal latin1] in *. unfold latin1_is_alnum.
    by rewrite Hc. }
  assert (H2 : _extract_entities latin1 (py "My code is 123456") ["totp_code"]%string
               !! "totp_code"%string = Some (py "123456")).
  { vm_compute. reflexivity. }
  split; [exact H1 |]. split; [exact H2 |].
  exact (totp_code_is_six_standalone_digits latin1 _ _ _ H1 H2).
Defined.

Lemma spells_seq_inv (U : unicode) (r1 r2 : regex) (w : str) :
  spells U (Seq r1 r2) w ->
  exists w1 w2, w = w1 ++ w2 /\ spells U r1 w1 /\ spells U r2 w2.
Proof. inversion 1; subst. eauto. Qed.

Lemma spells_opt_inv (U : unicode) (r : regex) (w : str) :
  spells U (Opt r) w -> w = [] \/ spells U r w.
Proof. inversion 1; subst; eauto. Qed.

Lemma spells_eps_inv (U : unicode) (w : str) : spells U Eps w -> w = [].
Proof. by inversion 1. Qed.

(** X8.  A price reported by [_extract_entities] was requested and stands
    in the text right after the two characters U+00E2 U+201A, optionally
    followed by U+00B9; it starts with a decimal digit and consists of
    decimal digits and commas only. *)
Theorem price_is_digit_groups_after_prefix (U : unicode) (text : str)
    (entity_types : list string) (price : str) :
  _extract_entities U text entity_types !! "price"%string = Some price ->
  "price"%string ∈ entity_types
  /\ (exists pre mark post,
        text = pre ++ py "â‚" ++ mark ++ price ++ post
        /\ (mark = [] \/ mark = py "¹"))
  /\ exists d ds,
       price = d :: ds /\ is_decimal U d = true
       /\ Forall (fun c => is_decimal U c = true \/ c = 44) ds.
Proof.
  rewrite extract_entities_lookup.
  case_bool_decide as Hreq; [| done].
  change (entity_rule U text "price") with (search U price_re text).
  intros Hs. split; [done |].
  apply search_sound in Hs
    as (skipped & wp & ws & rest & -> & Hp & Hg & Hsuf & _ & _).
  cbn [price_re prefix group1 suffix] in *.
  apply spells_eps_inv in Hsuf as ->.
  apply spells_seq_inv in Hp as (w1 & w2 & -> & Hw1 & Hw2).
  apply spells_str in Hw1 as ->.
  apply spells_seq_inv in Hg as (g1 & g2 & -> & Hg1 & Hg2).
  apply spells_plus_digit in Hg1 as (d & ds & -> & Hd & Hds).
  split.
  - exists skipped, w2, rest. split; [by rewrite <- !app_assoc |].
    apply spells_opt_inv in Hw2 as [-> | Hw]; [by left | right].
    by apply spells_str in Hw.
  - exists d, (ds ++ g2). repeat split; [done |]. apply Forall_app. split.
    + eapply Forall_impl; [exact Hds |]. by left.
    + apply (spells_star_forall U (Seq (Str (py ",")) (Plus Digit))); [| done].
      intros w Hw. apply spells_seq_inv in Hw as (c1 & c2 & -> & Hc1 & Hc2).
      apply spells_str in Hc1 as ->.
      apply spells_plus_digit in Hc2 as (d' & ds' & -> & Hd' & Hds').
      constructor; [by right |]. constructor; [by left |].
      eapply Forall_impl; [exact Hds' |]. by left.
Qed.

Lemma price_is_digit_groups_after_prefix_witness :
  _extract_entities latin1 (py "pay â‚¹1,500 now") ["price"]%string
  !! "price"%string = Some (py "1,500")
  /\ "price"%string ∈ ["price"]%string
  /\ (exists pre mark post,
        py "pay â‚¹1,500 now" = pre ++ py "â‚" ++ mark ++ py "1,500" ++ post
        /\ (mark = [] \/ mark = py "¹"))
  /\ exists d ds,
       py "1,500" = d :: ds /\ is_decimal latin1 d = true
       /\ Forall (fun c => is_decimal latin1 c = true \/ c = 44) ds.
Proof.
  assert (H : _extract_entities latin1 (py "pay â‚¹1,500 now") ["price"]%string
              !! "price"%string = Some (py "1,500")).
  { vm_compute. reflexivity. }
  split; [exact H |].
  exact (price_is_digit_groups_after_prefix latin1 _ _ _ H).
Defined.

Lemma spells_word_inv (U : unicode) (w : str) :
  spells U Word w -> exists c, w = [c] /\ is_word U c = true.
Proof. inversion 1; subst. eauto. Qed.

Lemma spells_star_space (U : unicode) (w : str) :
  spells U (Star Space) w -> Forall (fun c => is_space c = true) w.
Proof.
  apply (spells_star_forall U Space). intros w'. inversion 1; subst.
  by repeat constructor.
Qed.

(** X9.  A token id reported by [_extract_entities] was requested, is a run
    of at least one word character of the lowercased text, and follows the
    word [token] there, separated from it by nothing but white space and the
    characters of an optional [id] and an optional colon. *)
Theorem token_id_is_word_after_token (U : unicode) (text : str)
    (entity_types : list string) (token : str) :
  _extract_entities U text entity_types !! "token_id"%string = Some token ->
  "token_id"%string ∈ entity_types
  /\ token <> []
  /\ Forall (fun c => is_word U c = true) token
  /\ exists pre gap post,
       lower U text = pre ++ py "token" ++ gap ++ token ++ post
       /\ Forall (fun c => is_space c = true \/ c ∈ py "id:") gap.
Proof.
  rewrite extract_entities_lookup.
  case_bool_decide as Hreq; [| done].
  change (entity_rule U text "token_id") with (search U token_re (lower U text)).
  intros Hs. split; [done |].
  apply search_sound in Hs
    as (skipped & wp & ws & rest & -> & Hp & Hg & Hsuf & _ & _).
  cbn [token_re prefix group1 suffix seqs] in *.
  apply spells_eps_inv in Hsuf as ->.
  unfold Plus in Hg.
  apply spells_seq_inv in Hg as (g1 & g2 & -> & Hg1 & Hg2).
  apply spells_word_inv in Hg1 as (c & -> & Hc).
  split; [done |]. split.
  { constructor; [done |]. apply (spells_star_forall U Word); [| done].
    intros w Hw. apply spells_word_inv in Hw as (c' & -> & Hc').
    by repeat constructor. }
  apply spells_seq_inv in Hp as (w1 & t1 & -> & Hw1 & Ht1).
  apply spells_seq_inv in Ht1 as (w2 & t2 & -> & Hw2 & Ht2).
  apply spells_seq_inv in Ht2 as (w3 & t3 & -> & Hw3 & Ht3).
  apply spells_seq_inv in Ht3 as (w4 & t4 & -> & Hw4 & Ht4).
  apply spells_seq_inv in Ht4 as (w5 & t5 & -> & Hw5 & Ht5).
  apply spells_seq_inv in Ht5 as (w6 & t6 & -> & Hw6 & Ht6).
  apply spells_eps_inv in Ht6 as ->.
  apply spells_str in Hw1 as ->.
  apply spells_star_space in Hw2, Hw4, Hw6.
  exists skipped, (w2 ++ w3 ++ w4 ++ w5 ++ w6), rest.
  split; [by rewrite app_nil_r, <- !app_assoc |].
  assert (Hspace : forall w, Forall (fun c => is_space c = true) w ->
            Forall (fun c => is_space c = true \/ c ∈ py "id:") w).
  { intros w Hw. eapply Forall_impl; [exact Hw |]. by left. }
  assert (Hopt : forall s w, spells U (Opt (Str s)) w -> s ⊆ py "id:" ->
            Forall (fun c => is_space c = true \/ c ∈ py "id:") w).
  { intros s w Hw Hsub.
    apply spells_opt_inv in Hw as [-> | Hw']; [constructor |].
    apply spells_str in Hw' as ->. apply Forall_forall. intros x Hx.
    right. by apply Hsub. }
  repeat (apply Forall_app; split); try by apply Hspace.
  - apply (Hopt (py "id")); [done |]. apply (bool_decide_unpack _). by vm_compute.
  - apply (Hopt (py ":")); [done |]. apply (bool_decide_unpack _). by vm_compute.
Qed.

Lemma token_id_is_word_after_token_witness :
  _extract_entities latin1 (py "Token ID: 42 please") ["token_id"]%string
  !! "token_id"%string = Some (py "42")
  /\ "token_id"%string ∈ ["token_id"]%string
  /\ py "42" <> []
  /\ Forall (fun c => is_word latin1 c = true) (py "42")
  /\ exists pre gap post,
       lower latin1 (py "Token ID: 42 please")
       = pre ++ py "token" ++ gap ++ py "42" ++ post
       /\ Forall (fun c => is_space c = true \/ c ∈ py "id:") gap.
Proof.
  assert (H : _extract_entities latin1 (py "Token ID: 42 please") ["token_id"]%string
              !! "token_id"%string = Some (py "42")).
  { vm_compute. reflexivity. }
  split; [exact H |].
  exact (token_id_is_word_after_token latin1 _ _ _ H).
Defined.

(** ** Dispatch of a message *)

Lemma chat_dispatch (U : unicode) (T : prose)
    (g4f_create : list message -> completion) (self : bot) (user_input : str)
    (current_page : option str) :
  chat U T g4f_create self user_input current_page
  = if bool_decide (strip user_input = []) then (empty_prompt, self)
    else match first_shortcut (strip (lower U user_input)) with
         | Some topic => (get_quick_response T topic, self)
         | None => get_contextual_response U T g4f_create self user_input current_page
         end.
Proof.
  unfold chat. case_bool_decide; [done |]. cbv zeta.
  unfold first_shortcut, shortcuts. cbn [List.find fst snd].
  repeat match goal with
         | |- context [if any_in ?kws ?t then _ else _] =>
             destruct (any_in kws t); [reflexivity |]
         end.
  reflexivity.
Qed.

Lemma first_shortcut_topic (text : str) (topic : string) :
  first_shortcut text = Some topic -> topic ∈ map snd shortcuts.
Proof.
  unfold first_shortcut. destruct (List.find _ shortcuts) as [branch|] eqn:Hf; [| done].
  intros [= <-]. apply find_some in Hf as [Hin _].
  apply list_elem_of_fmap. exists branch. split; [done |].
  by apply list_elem_of_In.
Qed.

(** X10.  [chat] answers a blank message with the fixed prompt; otherwise
    it answers with the canned text of the first shortcut branch, in the
    order greeting, purchase, wallet, validation, payment, trouble, one of
    whose keywords occurs in the lowered, stripped message, later branches
    being ignored; and only when no branch matches does it run
    [get_contextual_response].  In the first two cases the object is
    returned unchanged. *)
Theorem chat_takes_first_matching_shortcut (U : unicode) (T : prose)
    (g4f_create : list message -> completion) (self : bot) (user_input : str)
    (current_page : option str) :
  (strip user_input = [] ->
   chat U T g4f_create self user_input current_page = (empty_prompt, self))
  /\ (forall topic,
        strip user_input <> [] ->
        first_shortcut (strip (lower U user_input)) = Some topic ->
        chat U T g4f_create self user_input current_page = (quick_body T topic, self))
  /\ (strip user_input <> [] ->
      first_shortcut (strip (lower U user_input)) = None ->
      chat U T g4f_create self user_input current_page
      = get_contextual_response U T g4f_create self user_input current_page).
Proof.
  rewrite chat_dispatch. repeat split.
  - intros Hblank. by rewrite bool_decide_eq_true_2.
  - intros topic Hblank Hfirst. rewrite bool_decide_eq_false_2, Hfirst by done.
    f_equal. apply quick_topics_canned. by apply first_shortcut_topic in Hfirst.
  - intros Hblank Hfirst. by rewrite bool_decide_eq_false_2, Hfirst.
Qed.

Example greeting_wins_over_payment :
  fst (chat latin1 plain (fun _ => inl (py "unused")) (init 0 (py "s1"))
            (py "Which payment methods do you support?") None)
  = quick_body plain "welcome".
Proof. vm_compute. reflexivity. Qed.

(** X11.  [get_quick_response] returns the canned text for the six topics
    it knows and, for any other topic, the fixed sentence saying that there
    is no quick response. *)
Theorem quick_response_of_unknown_topic_is_default (T : prose) (topic : string) :
  get_quick_response T topic
  = if bool_decide (topic ∈ map snd shortcuts) then quick_body T topic
    else quick_default.
Proof.
  case_bool_decide as Hin; [by apply quick_topics_canned |].
  unfold shortcuts in Hin. cbn [map snd] in Hin.
  unfold get_quick_response, quick_responses. cbn [map Dict.get].
  repeat match goal with
         | |- context [String.eqb topic ?k] =>
             destruct (String.eqb_spec topic k) as [-> | ?];
             [exfalso; apply Hin; apply (bool_decide_unpack _); by vm_compute |]
         end.
  reflexivity.
Qed.

(** ** What a call keeps and what it adds *)

Lemma last_n_length {A : Type} (n : nat) (l : list A) :
  (length (last_n n l) <= n)%nat.
Proof. unfold last_n. rewrite length_drop. lia. Qed.

Lemma last_n_suffix {A : Type} (n : nat) (l : list A) :
  exists older, l = older ++ last_n n l.
Proof. exists (take (length l - n) l). unfold last_n. by rewrite take_drop. Qed.

(** X12.  Every call of [get_contextual_response] hands exactly one message
    list to the completion service, whether the service then answers or
    raises: the system message, then the last turns of the history (at most
    eight, the most recent ones), then the user's message; so at most ten
    messages. *)
Theorem one_completion_call_with_recent_history (U : unicode) (T : prose)
    (g4f_create : list message -> completion) (self : bot) (user_input : str)
    (current_page : option str) :
  exists system_content older recent,
    completion_calls
      (snd (get_contextual_response U T g4f_create self user_input current_page))
    = completion_calls self
      ++ [ {| role := "system"; content := system_content |} :: recent
           ++ [ {| role := "user"; content := user_input |} ] ]
    /\ conversation_history self = older ++ recent
    /\ (length recent <= 8)%nat
    /\ (older <> [] -> length recent = 8%nat).
Proof.
  destruct (analyze_result U user_input) as (r & P & Hr & _).
  rewrite (get_contextual_response_outcome U T g4f_create self user_input
             current_page r Hr). cbv zeta.
  destruct (last_n_suffix 8 (conversation_history self)) as [older Holder].
  eexists _, older, (last_n 8 (conversation_history self)).
  split; [| split; [exact Holder | split; [apply last_n_length |]]].
  - destruct (g4f_create _); cbn [snd];
      unfold set_last_topic, append_history, record_call; cbn [completion_calls];
      (destruct (truthy current_page); cbn [set_current_page completion_calls];
       unfold build_messages; cbv zeta; reflexivity).
  - intros Hne. unfold last_n in *. rewrite length_drop.
    destruct (decide (length (conversation_history self) <= 8)%nat) as [Hle | Hgt];
      [| lia].
    exfalso. apply Hne. replace (length (conversation_history self) - 8)%nat
      with 0%nat in Holder by lia.
    cbn [drop] in Holder. symmetry in Holder.
    rewrite <- (app_nil_l (conversation_history self)) in Holder at 2.
    by apply app_inv_tail in Holder.
Qed.

(** What [get_contextual_response] leaves alone and what it may add. *)
Lemma get_contextual_response_frame (U : unicode) (T : prose)
    (g4f_create : list message -> completion) (self : bot) (user_input : str)
    (current_page : option str) :
  let out := get_contextual_response U T g4f_create self user_input current_page in
  session_id (snd out) = session_id self
  /\ session_start (snd out) = session_start self
  /\ user_feedback (snd out) = user_feedback self
  /\ user_type (user_context (snd out)) = user_type (user_context self)
  /\ length (completion_calls (snd out)) = S (length (completion_calls self))
  /\ ((conversation_history (snd out) = conversation_history self
       /\ last_topic (user_context (snd out)) = last_topic (user_context self))
      \/ (conversation_history (snd out)
          = conversation_history self ++ turn_entries (user_input, fst out)
          /\ exists k, last_topic (user_context (snd out)) = Some k
                       /\ k ∈ Dict.keys intent_patterns)).
Proof.
  destruct (analyze_result U user_input) as (r & P & Hr & Hs & _ & Hin & _).
  assert (Hk : intent r ∈ Dict.keys intent_patterns).
  { rewrite <- (scores_of_keys (lower U user_input)), <- Hs.
    apply list_elem_of_fmap. by exists (intent r, confidence r). }
  cbv zeta.
  rewrite (get_contextual_response_outcome U T g4f_create self user_input
             current_page r Hr). cbv zeta.
  destruct (g4f_create _) as [response | e]; cbn [fst snd];
    unfold set_last_topic, append_history, record_call, turn_entries;
    cbn [session_id session_start user_feedback user_context user_type
         completion_calls conversation_history last_topic fst snd];
    destruct (truthy current_page);
    cbn [set_current_page session_id session_start user_feedback user_context
         user_type completion_calls conversation_history last_topic];
    rewrite ?length_app; cbn [length]; rewrite ?Nat.add_1_r;
    repeat split; try done.
  1, 2: right; split; [by rewrite <- app_assoc | by exists (intent r)].
  1, 2: by left.
Qed.

(** X13.  A call of [chat] never touches the session identifier, the start
    time, the feedback log or the user type; it records at most one
    completion call; and it either leaves the history and the last topic as
    they were or appends the user's message and the reply, in this order,
    and sets the last topic to an intent of the pattern table. *)
Theorem chat_extends_history_keeps_session (U : unicode) (T : prose)
    (g4f_create : list message -> completion) (self : bot) (user_input : str)
    (current_page : option str) :
  let out := chat U T g4f_create self user_input current_page in
  session_id (snd out) = session_id self
  /\ session_start (snd out) = session_start self
  /\ user_feedback (snd out) = user_feedback self
  /\ user_type (user_context (snd out)) = user_type (user_context self)
  /\ (length (completion_calls self) <= length (completion_calls (snd out))
      <= S (length (completion_calls self)))%nat
  /\ ((conversation_history (snd out) = conversation_history self
       /\ last_topic (user_context (snd out)) = last_topic (user_context self))
      \/ (conversation_history (snd out)
          = conversation_history self ++ turn_entries (user_input, fst out)
          /\ exists k, last_topic (user_context (snd out)) = Some k
                       /\ k ∈ Dict.keys intent_patterns)).
Proof.
  cbv zeta. rewrite chat_dispatch.
  assert (Hsame : forall reply : str,
            let out := (reply, self) in
            session_id (snd out) = session_id self
            /\ session_start (snd out) = session_start self
            /\ user_feedback (snd out) = user_feedback self
            /\ user_type (user_context (snd out)) = user_type (user_context self)
            /\ (length (completion_calls self) <= length (completion_calls (snd out))
                <= S (length (completion_calls self)))%nat
            /\ ((conversation_history (snd out) = conversation_history self
                 /\ last_topic (user_context (snd out)) = last_topic (user_context self))
                \/ (conversation_history (snd out)
                    = conversation_history self ++ turn_entries (user_input, fst out)
                    /\ exists k, last_topic (user_context (snd out)) = Some k
                                 /\ k ∈ Dict.keys intent_patterns))).
  { intros reply. cbn [fst snd]. repeat split; try done; try lia. by left. }
  case_bool_decide; [apply Hsame |].
  destruct (first_shortcut _); [apply Hsame |].
  pose proof (get_contextual_response_frame U T g4f_create self user_input
                current_page) as Hf. cbv zeta in Hf.
  destruct Hf as (H1 & H2 & H3 & H4 & H5 & H6).
  repeat split; try done; rewrite H5; lia.
Qed.

Lemma chat_step_cases (U : unicode) (T : prose)
    (g4f_create : list message -> completion) (self : bot) (user_input : str)
    (current_page : option str) :
  snd (chat U T g4f_create self user_input current_page) = self
  \/ chat U T g4f_create self user_input current_page
     = get_contextual_response U T g4f_create self user_input current_page.
Proof.
  rewrite chat_dispatch. case_bool_decide; [by left |].
  destruct (first_shortcut _); [by left | by right].
Qed.

Lemma chats_preserve (U : unicode) (T : prose) (calls : list call) :
  forall (self : bot) (log : list (str * str)),
    conversation_history self = flat_map turn_entries log ->
    (length log <= length (completion_calls self))%nat ->
    (forall k, last_topic (user_context self) = Some k ->
               k ∈ Dict.keys intent_patterns) ->
    let self' := chats U T self calls in
    (exists log',
       conversation_history self' = flat_map turn_entries log'
       /\ (length log' <= length (completion_calls self')
           <= length (completion_calls self) + length calls)%nat)
    /\ (forall k, last_topic (user_context self') = Some k ->
                  k ∈ Dict.keys intent_patterns)
    /\ user_type (user_context self') = user_type (user_context self)
    /\ user_feedback self' = user_feedback self
    /\ session_id self' = session_id self
    /\ session_start self' = session_start self.
Proof.
  induction calls as [|c calls IH]; intros self log Hhist Hlen Htopic; cbn [chats].
  - cbv zeta. split; [exists log; split; [done | lia] | done].
  - destruct (chat_step_cases U T (service c) self (input c) (page c))
      as [Hsame | Hfull].
    + rewrite Hsame. cbv zeta in IH.
      destruct (IH self log Hhist Hlen Htopic)
        as ((log' & Hh & Hl) & Ht & Hu & Hf & Hi & Hs).
      cbv zeta. split; [exists log'; split; [done | cbn [length]; lia] | done].
    + rewrite Hfull.
      pose proof (get_contextual_response_frame U T (service c) self (input c)
                    (page c)) as Hf. cbv zeta in Hf.
      set (out := get_contextual_response U T (service c) self (input c) (page c))
        in *.
      destruct Hf as (F1 & F2 & F3 & F4 & F5 & F6).
      assert (Hstep : exists log1,
                conversation_history (snd out) = flat_map turn_entries log1
                /\ (length log1 <= length (completion_calls (snd out)))%nat
                /\ forall k, last_topic (user_context (snd out)) = Some k ->
                             k ∈ Dict.keys intent_patterns).
      { destruct F6 as [[Hh Ht] | [Hh (k & Ht & Hk)]].
        - exists log. rewrite Hh, Ht, F5. split; [done |]. split; [lia | done].
        - exists (log ++ [(input c, fst out)]).
          rewrite Hh, Hhist, flat_map_app, length_app, F5. cbn [flat_map length].
          rewrite app_nil_r. split; [done |]. split; [lia |].
          intros k' Hk'. congruence. }
      destruct Hstep as (log1 & Hh1 & Hl1 & Ht1). cbv zeta in IH.
      destruct (IH (snd out) log1 Hh1 Hl1 Ht1)
        as ((log' & Hh & Hl) & Ht & Hu & Hfb & Hi & Hs).
      cbv zeta. split.
      * exists log'. split; [done |]. rewrite F5 in Hl. cbn [length]. lia.
      * repeat split; try done; congruence.
Qed.

(** X14.  After any sequence of [chat] calls on a new chatbot, whatever the
    completion service answered: the history is a sequence of pairs, a user
    message followed by the reply to it, there are at most as many pairs as
    completion calls and at most as many completion calls as [chat] calls;
    the last topic is unset or an intent of the pattern table; the user type
    is still [new], the feedback log is empty and the identifier and start
    time are those given at creation. *)
Theorem session_invariants_after_chats (U : unicode) (T : prose) (start : Z)
    (sid : str) (calls : list call) :
  let self := chats U T (init start sid) calls in
  (exists log,
     conversation_history self = flat_map turn_entries log
     /\ (length log <= length (completion_calls self) <= length calls)%nat)
  /\ (last_topic (user_context self) = None
      \/ exists k, last_topic (user_context self) = Some k
                   /\ k ∈ Dict.keys intent_patterns)
  /\ user_type (user_context self) = "new"%string
  /\ user_feedback self = []
  /\ session_id self = sid
  /\ session_start self = start.
Proof.
  pose proof (chats_preserve U T calls (init start sid) []) as H.
  cbv zeta in *. cbn [init conversation_history completion_calls user_context
                      last_topic flat_map length] in H.
  destruct H as ((log & Hh & Hl) & Ht & Hu & Hf & Hi & Hs); [done | lia | done |].
  split; [by exists log |]. split.
  - destruct (last_topic _) as [k|]; [right | by left]. exists k. by split; [| apply Ht].
  - done.
Qed.

(** X15.  After a call of [get_contextual_response] that the completion
    service answered, [get_conversation_summary] counts two more messages
    than before, names the reply as the last interaction and shows the
    winning intent as last topic. *)
Theorem summary_after_answered_call (U : unicode) (T : prose)
    (g4f_create : list message -> completion) (self : bot)
    (user_input response : str) (current_page : option str)
    (analysis : intent_result) (now : Z) :
  analyze_user_intent U user_input = Some analysis ->
  g4f_create (build_messages T self analysis user_input current_page)
    = inl response ->
  let self' :=
    snd (get_contextual_response U T g4f_create self user_input current_page) in
  messages_exchanged (get_conversation_summary now self')
  = (messages_exchanged (get_conversation_summary now self) + 2)%nat
  /\ last_interaction (get_conversation_summary now self')
     = Some {| role := "assistant"; content := response |}
  /\ last_topic (summary_context (get_conversation_summary now self'))
     = Some (intent analysis).
Proof.
  intros Ha Hr. cbv zeta. unfold get_conversation_summary.
  cbn [messages_exchanged last_interaction summary_context].
  rewrite (answered_call_history U T g4f_create self user_input response
             current_page analysis Ha Hr).
  unfold turn_entries. cbn [fst snd].
  split; [rewrite length_app; cbn [length]; lia |]. split.
  - change [ {| role := "user"; content := user_input |};
             {| role := "assistant"; content := response |} ]
      with ([ {| role := "user"; content := user_input |} ]
            ++ [ {| role := "assistant"; content := response |} ]).
    by rewrite app_assoc, last_snoc.
  - rewrite (get_contextual_response_outcome U T g4f_create self user_input
               current_page analysis Ha). cbv zeta. by rewrite Hr.
Qed.

Lemma summary_after_answered_call_witness :
  exists analysis,
    analyze_user_intent latin1 (py "Tell me a story") = Some analysis
    /\ (fun _ : list message => inl (py "Once upon a time") : completion)
         (build_messages plain (init 0 (py "s1")) analysis
                         (py "Tell me a story") None)
       = inl (py "Once upon a time")
    /\ messages_exchanged
         (get_conversation_summary 9
            (snd (get_contextual_response latin1 plain
                    (fun _ => inl (py "Once upon a time")) (init 0 (py "s1"))
                    (py "Tell me a story") None)))
       = (messages_exchanged (get_conversation_summary 9 (init 0 (py "s1"))) + 2)%nat
    /\ last_interaction
         (get_conversation_summary 9
            (snd (get_contextual_response latin1 plain
                    (fun _ => inl (py "Once upon a time")) (init 0 (py "s1"))
                    (py "Tell me a story") None)))
       = Some {| role := "assistant"; content := py "Once upon a time" |}
    /\ last_topic
         (summary_context
            (get_conversation_summary 9
               (snd (get_contextual_response latin1 plain
                       (fun _ => inl (py "Once upon a time")) (init 0 (py "s1"))
                       (py "Tell me a story") None))))
       = Some (intent analysis).
Proof.
  eexists. split; [vm_compute; reflexivity |]. split; [reflexivity |].
  eapply (summary_after_answered_call latin1 plain
            (fun _ => inl (py "Once upon a time")) (init 0 (py "s1"))
            (py "Tell me a story") (py "Once upon a time") None _ 9);
    [vm_compute; reflexivity | reflexivity].
Defined.

(** ** Feedback, export and suggestions *)







Example rating_outside_scale :
  (fun out : session_export * bot => average_rating (export_feedback (fst out)))
    <$> export_session_data (fun _ => 60%Z)
          (snd (add_user_feedback 1 (init 0 (py "s1")) (py "m1") 100 None))
  = Some (Some (100 # 1)%Q).
Proof. vm_compute. reflexivity. Qed.

Lemma suggested_questions_base (self : bot) :
  get_suggested_questions self = base_suggestions.
Proof.
  unfold get_suggested_questions. cbv zeta.
  case_bool_decide; [by vm_compute |]. case_bool_decide; by vm_compute.
Qed.

(** X18.  [get_suggested_questions] returns the same eight questions
    whatever the last topic: the questions it adds for the topics
    [wallet_connection] and [ticket_purchase] come after the eighth and are
    cut off. *)
Theorem suggestions_ignore_last_topic (self : bot) :
  get_suggested_questions self = base_suggestions
  /\ length (get_suggested_questions self) = 8%nat
  /\ Forall (fun q => q ∉ get_suggested_questions self)
            (wallet_suggestions ++ purchase_suggestions).
Proof.
  rewrite suggested_questions_base. split; [done |]. split; [by vm_compute |].
  apply (bool_decide_unpack _). by vm_compute.
Qed.

(** ** The HTTP endpoints and the session store *)

Lemma chat_endpoint_store (U : unicode) (T : prose) (strftime : Z -> str)
    (g4f_create : list message -> completion) (now : nat -> Z) (active_sessions : gmap (list N) bot) (data : chat_request) :
  let session_id := default (py "web_" ++ strftime (now 0%nat)) (req_session_id data) in
  let message := strip (default [] (req_message data)) in
  let before :=
    default (new_web_chatbot strftime (now 1%nat) (now 2%nat) (Some session_id))
            (active_sessions !! session_id) in
  let answer :=
    if bool_decide (message = []) then (please_prompt, before)
    else chat U T g4f_create before message (req_current_page data) in
  chat_endpoint U T strftime g4f_create now active_sessions data
  = ({| reply_response := fst answer;
        reply_session_id := session_id;
        reply_suggested := get_suggested_questions (snd answer);
        reply_context := get_chat_context (now 3%nat) (snd answer);
        reply_timestamp := now 4%nat |},
     <[session_id := snd answer]> active_sessions).
Proof.
  cbv zeta. unfold chat_endpoint. cbv zeta.
  destruct (active_sessions !! _) as [chatbot|]; cbn [default from_option id];
    by destruct (if bool_decide _ then _ else _).
Qed.

(** X19.  [chat_endpoint] answers under the session identifier of the
    request, or under a fresh one made from the clock when the request has
    none; afterwards the store holds a chatbot under that identifier, whose
    history length is the one reported in the reply; every other session is
    untouched, no session is removed and at most one is added. *)
Theorem chat_endpoint_touches_one_session (U : unicode) (T : prose)
    (strftime : Z -> str) (g4f_create : list message -> completion) (now : nat -> Z)
    (active_sessions : gmap (list N) bot) (data : chat_request) :
  let out := chat_endpoint U T strftime g4f_create now active_sessions data in
  let sid := reply_session_id (fst out) in
  sid = default (py "web_" ++ strftime (now 0%nat)) (req_session_id data)
  /\ (exists chatbot,
        snd out !! sid = Some chatbot
        /\ conversation_length (reply_context (fst out))
           = length (conversation_history chatbot)
        /\ ctx_last_topic (reply_context (fst out))
           = last_topic (user_context chatbot))
  /\ (forall other, other <> sid -> snd out !! other = active_sessions !! other)
  /\ dom active_sessions ⊆ dom (snd out)
  /\ (health_check active_sessions <= health_check (snd out)
      <= S (health_check active_sessions))%nat.
Proof.
  cbv zeta. rewrite chat_endpoint_store. cbv zeta. cbn [fst snd reply_session_id].
  split; [done |]. split.
  { eexists. split; [apply lookup_insert_eq | done]. }
  split.
  { intros other Hne. by rewrite lookup_insert_ne. }
  split; [apply dom_insert_subseteq |].
  unfold health_check. rewrite map_size_insert.
  destruct (active_sessions !! _); unfold id; lia.
Qed.

(** X20.  A request without a message, or with a blank one, is answered
    with the fixed request for a message and [chat] is not called; a
    known session is left exactly as it was, but an unknown identifier still
    gets a session: a new chatbot with an empty history is stored under it.
    That chatbot carries the identifier itself, except for the empty
    identifier, in place of which it carries a generated one. *)
Theorem blank_request_still_opens_session (U : unicode) (T : prose)
    (strftime : Z -> str) (g4f_create : list message -> completion)
    (now : nat -> Z) (active_sessions : gmap (list N) bot) (data : chat_request) :
  strip (default [] (req_message data)) = [] ->
  let sid := default (py "web_" ++ strftime (now 0%nat)) (req_session_id data) in
  let out := chat_endpoint U T strftime g4f_create now active_sessions data in
  reply_response (fst out) = please_prompt
  /\ reply_session_id (fst out) = sid
  /\ (is_Some (active_sessions !! sid) -> snd out = active_sessions)
  /\ (active_sessions !! sid = None ->
      exists fresh,
        snd out = <[sid := fresh]> active_sessions
        /\ conversation_history fresh = []
        /\ completion_calls fresh = []
        /\ session_id fresh
           = (if bool_decide (sid = []) then py "truepass_" ++ strftime (now 2%nat)
              else sid)
        /\ health_check (snd out) = S (health_check active_sessions)
        /\ conversation_length (reply_context (fst out)) = 0%nat).
Proof.
  intros Hblank. cbv zeta. rewrite chat_endpoint_store. cbv zeta.
  rewrite Hblank, bool_decide_eq_true_2 by done.
  cbn [fst snd reply_response reply_session_id reply_context].
  split; [done |]. split; [done |]. split.
  - intros [chatbot Hsome]. rewrite Hsome. cbn [default from_option id].
    by apply insert_id.
  - intros Hnone. rewrite Hnone. cbn [default from_option id].
    eexists. split; [reflexivity |].
    unfold new_web_chatbot, truthy, health_check.
    rewrite map_size_insert_None by done.
    destruct (default (py "web_" ++ strftime (now 0%nat)) (req_session_id data))
      as [|c sid]; by repeat split.
Qed.

Lemma blank_request_still_opens_session_witness :
  strip (default [] (req_message
           {| req_session_id := Some (py "abc"); req_message := Some (py "   ");
              req_current_page := None |})) = []
  /\ reply_response
       (fst (chat_endpoint latin1 plain (fun _ => py "20240101_000000")
               (fun _ => inl (py "unused")) (fun _ => 7%Z) ∅
               {| req_session_id := Some (py "abc"); req_message := Some (py "   ");
                  req_current_page := None |}))
     = please_prompt
  /\ health_check
       (snd (chat_endpoint latin1 plain (fun _ => py "20240101_000000")
               (fun _ => inl (py "unused")) (fun _ => 7%Z) ∅
               {| req_session_id := Some (py "abc"); req_message := Some (py "   ");
                  req_current_page := None |}))
     = 1%nat.
Proof.
  assert (H : strip (default [] (req_message
                {| req_session_id := Some (py "abc"); req_message := Some (py "   ");
                   req_current_page := None |})) = []).
  { vm_compute. reflexivity. }
  split; [exact H |].
  destruct (blank_request_still_opens_session latin1 plain
              (fun _ => py "20240101_000000") (fun _ => inl (py "unused"))
              (fun _ => 7%Z) ∅ _ H) as (H1 & _ & _ & H4).
  split; [exact H1 |].
  destruct (H4 (lookup_empty _)) as (fresh & _ & _ & _ & _ & Hsize & _).
  exact Hsize.
Defined.

Lemma chat_history_extends (U : unicode) (T : prose)
    (g4f_create : list message -> completion) (self : bot) (user_input : str)
    (current_page : option str) :
  exists extra,
    conversation_history (snd (chat U T g4f_create self user_input current_page))
    = conversation_history self ++ extra
    /\ (length extra <= 2)%nat
    /\ session_start (snd (chat U T g4f_create self user_input current_page))
       = session_start self
    /\ session_id (snd (chat U T g4f_create self user_input current_page))
       = session_id self.
Proof.
  destruct (chat_step_cases U T g4f_create self user_input current_page)
    as [-> | ->].
  - exists []. rewrite app_nil_r. split; [done |]. split; [cbn [length]; lia | done].
  - pose proof (get_contextual_response_frame U T g4f_create self user_input
                  current_page) as Hf. cbv zeta in Hf.
    destruct Hf as (H1 & H2 & _ & _ & _ & [[Hh _] | [Hh _]]).
    + exists []. rewrite app_nil_r.
      split; [done |]. split; [cbn [length]; lia | done].
    + eexists. split; [exact Hh |]. split; [cbn [turn_entries length]; lia | done].
Qed.

(** X21.  Two requests that name the same session reach the same chatbot:
    the second request finds the history that the first one left, extends it
    by at most one exchange, adds no session, and the chatbot keeps its
    start time and identifier. *)
Theorem session_survives_between_requests (U : unicode) (T : prose)
    (strftime : Z -> str) (g1 g2 : list message -> completion)
    (now1 now2 : nat -> Z) (active_sessions : gmap (list N) bot)
    (data1 data2 : chat_request) (sid : str) :
  req_session_id data1 = Some sid ->
  req_session_id data2 = Some sid ->
  let out1 := chat_endpoint U T strftime g1 now1 active_sessions data1 in
  let out2 := chat_endpoint U T strftime g2 now2 (snd out1) data2 in
  reply_session_id (fst out2) = sid
  /\ health_check (snd out2) = health_check (snd out1)
  /\ exists first second extra,
       snd out1 !! sid = Some first
       /\ snd out2 !! sid = Some second
       /\ conversation_history second = conversation_history first ++ extra
       /\ (length extra <= 2)%nat
       /\ session_start second = session_start first
       /\ session_id second = session_id first
       /\ conversation_length (reply_context (fst out1))
          = length (conversation_history first)
       /\ conversation_length (reply_context (fst out2))
          = length (conversation_history second).
Proof.
  intros Hsid1 Hsid2. cbv zeta.
  rewrite (chat_endpoint_store U T strftime g1 now1 active_sessions data1).
  cbv zeta. rewrite Hsid1. cbn [default from_option id fst snd].
  set (first := snd (if bool_decide _ then _ else _)).
  rewrite (chat_endpoint_store U T strftime g2 now2 _ data2).
  cbv zeta. rewrite Hsid2. cbn [default from_option id fst snd reply_session_id
                                reply_context].
  rewrite lookup_insert_eq. cbn [default from_option id].
  split; [done |]. split.
  { unfold health_check.
    apply map_size_insert_Some. rewrite lookup_insert_eq. by eexists. }
  set (second := snd (if bool_decide _ then _ else _)).
  assert (Hext : exists extra,
            conversation_history second = conversation_history first ++ extra
            /\ (length extra <= 2)%nat
            /\ session_start second = session_start first
            /\ session_id second = session_id first).
  { subst second. case_bool_decide.
    - exists []. cbn [snd]. rewrite app_nil_r.
      split; [done |]. split; [cbn [length]; lia | done].
    - apply chat_history_extends. }
  destruct Hext as (extra & Hh & Hl & Hs & Hi).
  exists first, second, extra.
  rewrite !lookup_insert_eq. by repeat split.
Qed.

Lemma session_survives_between_requests_witness :
  req_session_id {| req_session_id := Some (py "abc");
                    req_message := Some (py "Tell me a story");
                    req_current_page := None |} = Some (py "abc")
  /\ req_session_id {| req_session_id := Some (py "abc");
                       req_message := Some (py "And another one");
                       req_current_page := Some (py "home") |} = Some (py "abc")
  /\ reply_session_id
       (fst (chat_endpoint latin1 plain (fun _ => py "20240101_000000")
               (fun _ => inl (py "There was a ticket")) (fun _ => 9%Z)
               (snd (chat_endpoint latin1 plain (fun _ => py "20240101_000000")
                       (fun _ => inl (py "Once upon a time")) (fun _ => 7%Z) ∅
                       {| req_session_id := Some (py "abc");
                          req_message := Some (py "Tell me a story");
                          req_current_page := None |}))
               {| req_session_id := Some (py "abc");
                  req_message := Some (py "And another one");
                  req_current_page := Some (py "home") |}))
     = py "abc".
Proof.
  split; [reflexivity |]. split; [reflexivity |].
  exact (proj1 (session_survives_between_requests latin1 plain
                  (fun _ => py "20240101_000000")
                  (fun _ => inl (py "Once upon a time"))
                  (fun _ => inl (py "There was a ticket"))
                  (fun _ => 7%Z) (fun _ => 9%Z) ∅
                  {| req_session_id := Some (py "abc");
                     req_message := Some (py "Tell me a story");
                     req_current_page := None |}
                  {| req_session_id := Some (py "abc");
                     req_message := Some (py "And another one");
                     req_current_page := Some (py "home") |}
                  (py "abc") eq_refl eq_refl)).
Defined.

Example two_requests_one_history :
  conversation_length
    (reply_context
       (fst (chat_endpoint latin1 plain (fun _ => py "20240101_000000")
               (fun _ => inl (py "There was a ticket")) (fun _ => 9%Z)
               (snd (chat_endpoint latin1 plain (fun _ => py "20240101_000000")
                       (fun _ => inl (py "Once upon a time")) (fun _ => 7%Z) ∅
                       {| req_session_id := Some (py "abc");
                          req_message := Some (py "Tell me a story");
                          req_current_page := None |}))
               {| req_session_id := Some (py "abc");
                  req_message := Some (py "And another one");
                  req_current_page := Some (py "home") |})))
  = 4%nat.
Proof. vm_compute. reflexivity. Qed.


Example feedback_for_unknown_session :
  feedback_endpoint 5 ∅
    {| fr_session_id := Some (py "nobody"); fr_message_id := py "m1";
       fr_rating := 5; fr_comment := None |}
  = (SessionNotFound, ∅).
Proof. reflexivity. Qed.

(** X23.  [suggestions_endpoint] returns the eight suggestions of the
    chatbot for a session that the store holds, and five fixed ones
    otherwise, also for a missing or empty identifier; the five are among
    the eight. *)
Theorem suggestions_by_session (active_sessions : gmap (list N) bot)
    (session_id : option str) :
  suggestions_endpoint active_sessions session_id
  = (if bool_decide (truthy session_id = true
                     /\ is_Some (active_sessions !! default [] session_id))
     then base_suggestions else default_suggestions)
  /\ default_suggestions ⊆ base_suggestions
  /\ length default_suggestions = 5%nat.
Proof.
  split; [| split; [apply (bool_decide_unpack _); by vm_compute | done]].
  unfold suggestions_endpoint. destruct (truthy session_id) eqn:Htruthy.
  - destruct (active_sessions !! default [] session_id) as [chatbot|] eqn:Hsid.
    + rewrite bool_decide_eq_true_2 by (split; [done | by eexists]).
      apply suggested_questions_base.
    + rewrite bool_decide_eq_false_2; [done |]. intros [_ [? ?]]. done.
  - rewrite bool_decide_eq_false_2; [done |]. intros [? _]. done.
Qed.
